(** * The Slack connector of Dust: lifecycle, permissions and bot flag

    A shallow embedding of [connectors/src/connectors/slack/index.ts] and of
    the bot-flag accessors of [connectors/src/connectors/slack/bot.ts].

    The relational store is a record of tables, each table a list of rows in
    storage order.  Every asynchronous function of the source becomes a
    computation in the monad [M]: it reads and writes the store, appends the
    external calls, log lines and store writes it performs to a chronological
    trace, and either returns a value or throws.  The third-party services
    (Nango, the Slack Web API, the Temporal workflow client) are the fields of
    a record [World]; an awaited external call is modelled by the value its
    promise resolves to. *)

From stdpp Require Import base gmap strings list pretty sorting.
From Stdlib Require Import ZArith.

Local Open Scope string_scope.
Local Open Scope list_scope.
Local Open Scope Z_scope.

(** ** Values shared by the connector modules *)

(** [ModelId] is the numeric primary key type of [lib/models]. *)
Abbreviation ModelId := Z (only parsing).

(** A JavaScript [Error], identified by its message. *)
Abbreviation Error := string (only parsing).

(** Modelled from the spec: the type [ConnectorPermission] of
    [types/resources], whose declaration is not part of the sources; section 3
    of the specification lists its four values. *)
Inductive ConnectorPermission : Type :=
| read
| write
| read_write
| none.

Global Instance ConnectorPermission_eq_dec : EqDecision ConnectorPermission.
Proof. solve_decision. Defined.

(** [lib/result]: the [Ok] / [Err] values returned by every operation. *)
Inductive Result (E A : Type) : Type :=
| Ok (value : A)
| Err (error : E).
Global Arguments Ok {E A} value.
Global Arguments Err {E A} error.

Definition isErr {E A} (r : Result E A) : bool :=
  match r with Ok _ => false | Err _ => true end.

(** [types/errors]: the body of a [ConnectorsAPIErrorResponse]. *)
Record ConnectorsAPIErrorResponse : Type := APIError {
  error_message : string;
  error_type : string;
}.

(** Truthiness of a [string | null | undefined]: [Some s] with [s] non-empty
    is the only truthy case; [truthy] returns that string. *)
Definition truthy (v : option string) : option string :=
  match v with
  | Some s => if bool_decide (s = "") then None else Some s
  | None => None
  end.

(** ** Rows and tables *)

(** Modelled from the spec: the Sequelize models of [lib/models] are not part
    of the sources.  Each record keeps the primary key and the columns that
    the connector code reads or writes. *)
Module Connector.
Record t : Type := mk {
  id : ModelId;
  type : string;
  connectionId : string;
  workspaceAPIKey : string;
  workspaceId : string;
  dataSourceName : string;
  defaultNewResourcePermission : ConnectorPermission;
}.
End Connector.

Global Instance Connector_eq_dec : EqDecision Connector.t.
Proof. solve_decision. Defined.

Module SlackConfiguration.
Record t : Type := mk {
  id : ModelId;
  slackTeamId : string;
  connectorId : ModelId;
  botEnabled : bool;
}.

Definition set_botEnabled (b : bool) (r : t) : t :=
  mk (id r) (slackTeamId r) (connectorId r) b.
End SlackConfiguration.

Module SlackChannel.
Record t : Type := mk {
  id : ModelId;
  connectorId : ModelId;
  slackChannelId : string;
  slackChannelName : string;
  permission : ConnectorPermission;
  createdAt : Z;
}.

Definition set_permission (p : ConnectorPermission) (r : t) : t :=
  mk (id r) (connectorId r) (slackChannelId r) (slackChannelName r) p
     (createdAt r).
End SlackChannel.

Module SlackMessages.
Record t : Type := mk {
  id : ModelId;
  connectorId : ModelId;
  channelId : string;
  messageTs : string;
  documentId : string;
}.
End SlackMessages.

Record DB : Type := mkDB {
  connectors : list Connector.t;
  slack_configurations : list SlackConfiguration.t;
  slack_channels : list SlackChannel.t;
  slack_messages : list SlackMessages.t;
}.

(** ** Effects *)

Inductive LogLevel : Type := LInfo | LError.

(** One entry of the chronological trace of a call: a log line (with the
    fields of its context object), an external call, or a write to the store. *)
Inductive event : Type :=
| Log (level : LogLevel) (context : list (string * string)) (message : string)
| NangoGetToken (providerConfigKey connectionId : string)
| NangoGetConnection (providerConfigKey connectionId : string)
| NangoDeleteConnection (connectionId providerConfigKey : string)
| GetAccessToken (connectionId : string)
| SlackTeamInfo (token : string)
| SlackAppsUninstall (token client_id client_secret : string)
| LaunchSlackSyncWorkflow (connectorId : string)
| LaunchSlackBotJoinedWorkflow (connectorId channelId : string)
| LaunchSlackGarbageCollectWorkflow (connectorId : string)
| DbCreate (table : string) (pk : ModelId)
| DbUpdate (table : string) (pk : ModelId)
| DbDestroy (table : string) (connectorId : ModelId).

Global Instance LogLevel_eq_dec : EqDecision LogLevel.
Proof. solve_decision. Defined.
Global Instance event_eq_dec : EqDecision event.
Proof. solve_decision. Defined.

(** The answer of Slack's [team.info]: [ti_team_id] is [teamInfo.team?.id]. *)
Record TeamInfoResponse : Type := mkTeamInfo {
  ti_ok : bool;
  ti_error : option string;
  ti_team_id : option string;
}.

(** The answer of Slack's [apps.uninstall]. *)
Record UninstallResponse : Type := mkUninstall {
  un_ok : bool;
  un_error : string;
}.

(** The environment of the connector service: [process.env] and the external
    services.  [nango_getConnection] gives [newConnectionRes?.team?.id]. *)
Record World : Type := mkWorld {
  NANGO_SLACK_CONNECTOR_ID : option string;
  SLACK_CLIENT_ID : option string;
  SLACK_CLIENT_SECRET : option string;
  nango_getToken : string → string → string;
  nango_getConnection : string → string → option string;
  nangoDeleteConnection : string → string → Result Error unit;
  getAccessToken : string → string;
  slack_team_info : string → TeamInfoResponse;
  slack_apps_uninstall : string → string → string → UninstallResponse;
  launchSlackSyncWorkflow : string → Result Error string;
  launchSlackBotJoinedWorkflow : string → string → Result Error string;
  launchSlackGarbageCollectWorkflow : string → Result Error string;
}.

(** How a computation ends: with a value, or with a thrown [Error]. *)
Inductive outcome (A : Type) : Type :=
| Returned (a : A)
| Thrown (e : Error).
Global Arguments Returned {A} a.
Global Arguments Thrown {A} e.

(** A computation over the store: outcome, final store, events in order. *)
Definition M (A : Type) : Type := DB → outcome A * DB * list event.

Global Instance M_ret : MRet M := λ A a db, (Returned a, db, []).

Global Instance M_bind : MBind M := λ A B k m db,
  match m db with
  | (Returned a, db1, t1) =>
      let '(o, db2, t2) := k a db1 in (o, db2, t1 ++ t2)
  | (Thrown e, db1, t1) => (Thrown e, db1, t1)
  end.

Definition throw {A} (e : Error) : M A := λ db, (Thrown e, db, []).

(** A read of the store. *)
Definition query {A} (f : DB → A) : M A := λ db, (Returned (f db), db, []).

(** A write to the store, recorded as [ev]. *)
Definition execute (ev : event) (f : DB → DB) : M unit :=
  λ db, (Returned tt, f db, [ev]).

(** An external call (or log line) recorded as [ev], resolving to [v]. *)
Definition call {A} (ev : event) (v : A) : M A := λ db, (Returned v, db, [ev]).

Definition logger (level : LogLevel) (context : list (string * string))
    (message : string) : M unit :=
  call (Log level context message) tt.

(** [sequelize_conn.transaction(callback)]: a managed transaction commits when
    the callback returns and rolls the store back when it throws; the external
    calls already made stay in the trace. *)
Definition transaction {A} (callback : M A) : M A := λ db,
  match callback db with
  | (Returned a, db1, t1) => (Returned a, db1, t1)
  | (Thrown e, _, t1) => (Thrown e, db, t1)
  end.

(** Projections of a finished run. *)
Definition result_of {A} (r : outcome A * DB * list event) : outcome A := r.1.1.
Definition db_of {A} (r : outcome A * DB * list event) : DB := r.1.2.
Definition trace_of {A} (r : outcome A * DB * list event) : list event := r.2.

(** ** The object-relational layer *)

(** [Model.findOne({where})]: the first row, in storage order, that satisfies
    the condition. *)
Definition findOne {R} (P : R → Prop) `{∀ r, Decision (P r)} (rows : list R)
    : option R :=
  head (filter P rows).

(** [Model.findAll({where})]. *)
Definition findAll {R} (P : R → Prop) `{∀ r, Decision (P r)} (rows : list R)
    : list R :=
  filter P rows.

(** [Model.destroy({where})]. *)
Definition destroy {R} (P : R → Prop) `{∀ r, Decision (P r)} (rows : list R)
    : list R :=
  filter (λ r, ¬ P r) rows.

(** The primary key given to a created row: one more than the largest key in
    the table. *)
Definition next_id (ids : list ModelId) : ModelId :=
  1 + foldr Z.max 0 ids.

(** [instance.update] and [instance.save] issue
    [UPDATE table SET ... WHERE id = pk]. *)
Definition update_where_pk {R} (pk_of : R → ModelId) (pk : ModelId)
    (f : R → R) (rows : list R) : list R :=
  (λ r, if bool_decide (pk_of r = pk) then f r else r) <$> rows.

Definition with_connectors (f : list Connector.t → list Connector.t)
    (db : DB) : DB :=
  mkDB (f (connectors db)) (slack_configurations db) (slack_channels db)
       (slack_messages db).

Definition with_slack_configurations
    (f : list SlackConfiguration.t → list SlackConfiguration.t) (db : DB)
    : DB :=
  mkDB (connectors db) (f (slack_configurations db)) (slack_channels db)
       (slack_messages db).

Definition with_slack_channels
    (f : list SlackChannel.t → list SlackChannel.t) (db : DB) : DB :=
  mkDB (connectors db) (slack_configurations db) (f (slack_channels db))
       (slack_messages db).

Definition with_slack_messages
    (f : list SlackMessages.t → list SlackMessages.t) (db : DB) : DB :=
  mkDB (connectors db) (slack_configurations db) (slack_channels db)
       (f (slack_messages db)).

(** ** [bot.ts]: the bot-enabled flag *)

Definition getBotEnabled (connectorId : ModelId) : M (Result Error bool) :=
  slackConfig ← query (λ db,
    findOne (λ r, SlackConfiguration.connectorId r = connectorId)
            (slack_configurations db));
  match slackConfig with
  | None =>
      mret (Err ("Failed to find a Slack configuration for connector "
                 +:+ pretty connectorId))
  | Some slackConfig => mret (Ok (SlackConfiguration.botEnabled slackConfig))
  end.

(** [slackConfig.save()] is recorded as the write of the row of the
    instance.  When the flag already has the value asked for, [save] has
    nothing to send; on a table with distinct primary keys the rows are the
    same in both readings, and the properties of the toggle are about the
    rows. *)
Definition toggleSlackbot (connectorId : ModelId) (botEnabled : bool)
    : M (Result Error unit) :=
  slackConfig ← query (λ db,
    findOne (λ r, SlackConfiguration.connectorId r = connectorId)
            (slack_configurations db));
  match slackConfig with
  | None =>
      mret (Err ("Failed to find a Slack configuration for connector "
                 +:+ pretty connectorId))
  | Some slackConfig =>
      execute (DbUpdate "slack_configurations" (SlackConfiguration.id slackConfig))
        (with_slack_configurations
           (update_where_pk SlackConfiguration.id
              (SlackConfiguration.id slackConfig)
              (SlackConfiguration.set_botEnabled botEnabled)));;
      mret (Ok tt)
  end.

(** ** [index.ts]: creating a connector *)

(** [types/data_source_config]: the fields the connector stores. *)
Record DataSourceConfig : Type := mkDataSourceConfig {
  dsc_workspaceAPIKey : string;
  dsc_workspaceId : string;
  dsc_dataSourceName : string;
}.

(** [Connector.create(values, {transaction})]. *)
Definition Connector_create (type connectionId workspaceAPIKey workspaceId
    dataSourceName : string)
    (defaultNewResourcePermission : ConnectorPermission) : M Connector.t :=
  λ db,
    let row :=
      Connector.mk (next_id (Connector.id <$> connectors db)) type connectionId
        workspaceAPIKey workspaceId dataSourceName
        defaultNewResourcePermission in
    (Returned row, with_connectors (λ rows, rows ++ [row]) db,
     [DbCreate "connectors" (Connector.id row)]).

(** [SlackConfiguration.create(values, {transaction})]. *)
Definition SlackConfiguration_create (slackTeamId : string)
    (connectorId : ModelId) (botEnabled : bool) : M SlackConfiguration.t :=
  λ db,
    let row :=
      SlackConfiguration.mk
        (next_id (SlackConfiguration.id <$> slack_configurations db))
        slackTeamId connectorId botEnabled in
    (Returned row, with_slack_configurations (λ rows, rows ++ [row]) db,
     [DbCreate "slack_configurations" (SlackConfiguration.id row)]).

(** The template fragment [${teamInfo.error || "unknown"}]. *)
Definition or_unknown (e : option string) : string :=
  default "unknown" (truthy e).

Definition createSlackConnector (w : World)
    (dataSourceConfig : DataSourceConfig) (connectionId : string)
    : M (Result Error string) :=
  let nangoConnectionId := connectionId in
  res ← transaction (
    match truthy (NANGO_SLACK_CONNECTOR_ID w) with
    | None => throw "NANGO_SLACK_CONNECTOR_ID is not defined"
    | Some nango_id =>
        slackAccessToken ←
          call (NangoGetToken nango_id nangoConnectionId)
               (nango_getToken w nango_id nangoConnectionId);
        teamInfo ←
          call (SlackTeamInfo slackAccessToken)
               (slack_team_info w slackAccessToken);
        if negb (ti_ok teamInfo) then
          mret (Err ("Could not get slack team info. Error message: "
                     +:+ or_unknown (ti_error teamInfo)))
        else
          match truthy (ti_team_id teamInfo) with
          | None =>
              mret (Err ("Could not get slack team id. Error message: "
                         +:+ or_unknown (ti_error teamInfo)))
          | Some team_id =>
              connector ←
                Connector_create "slack" nangoConnectionId
                  (dsc_workspaceAPIKey dataSourceConfig)
                  (dsc_workspaceId dataSourceConfig)
                  (dsc_dataSourceName dataSourceConfig) read_write;
              SlackConfiguration_create team_id (Connector.id connector)
                false;;
              mret (Ok connector)
          end
    end);
  match res with
  | Err e => mret (Err e)
  | Ok connector =>
      let id := pretty (Connector.id connector) in
      launchRes ←
        call (LaunchSlackSyncWorkflow id) (launchSlackSyncWorkflow w id);
      match launchRes with
      | Err e => mret (Err e)
      | Ok _ => mret (Ok id)
      end
  end.

(** ** [index.ts]: updating a connector *)

(** The [updateParams] object handed to [c.update]: an absent key leaves the
    column as it is. *)
Record UpdateParams : Type := mkUpdateParams {
  up_connectionId : option string;
  up_defaultNewResourcePermission : option ConnectorPermission;
}.

Definition apply_update (p : UpdateParams) (c : Connector.t) : Connector.t :=
  Connector.mk (Connector.id c) (Connector.type c)
    (default (Connector.connectionId c) (up_connectionId p))
    (Connector.workspaceAPIKey c) (Connector.workspaceId c)
    (Connector.dataSourceName c)
    (default (Connector.defaultNewResourcePermission c)
       (up_defaultNewResourcePermission p)).

Definition target_mismatch : ConnectorsAPIErrorResponse :=
  APIError "Cannot change the Slack Team of a Data Source"
           "connector_oauth_target_mismatch".

(** [c.update(updateParams)] sets the columns given on the instance and
    saves it; an UPDATE is sent only when some column of the instance has
    changed, so a request that changes nothing writes nothing. *)
Definition updateSlackConnector (w : World) (connectorId : ModelId)
    (connectionId : option string)
    (defaultNewResourcePermission : option ConnectorPermission)
    : M (Result ConnectorsAPIErrorResponse string) :=
  match truthy (NANGO_SLACK_CONNECTOR_ID w) with
  | None => throw "NANGO_SLACK_CONNECTOR_ID not set"
  | Some nango_id =>
  c ← query (λ db,
    findOne (λ r, Connector.id r = connectorId) (connectors db));
  match c with
  | None =>
      logger LError [("connectorId", pretty connectorId)]
        "Connector not found";;
      mret (Err (APIError "Connector not found" "connector_not_found"))
  | Some c =>
  currentSlackConfig ← query (λ db,
    findOne (λ r, SlackConfiguration.connectorId r = connectorId)
            (slack_configurations db));
  match currentSlackConfig with
  | None =>
      logger LError [("connectorId", pretty connectorId)]
        "Slack configuration not found";;
      mret (Err (APIError "Slack configuration not found"
                          "connector_not_found"))
  | Some currentSlackConfig =>
  checked ←
    match truthy connectionId with
    | Some connectionId =>
        newTeamId ←
          call (NangoGetConnection nango_id connectionId)
               (truthy (nango_getConnection w nango_id connectionId));
        match newTeamId with
        | None => mret (Err target_mismatch)
        | Some newTeamId =>
            if bool_decide
                 (newTeamId ≠ SlackConfiguration.slackTeamId currentSlackConfig)
            then mret (Err target_mismatch)
            else mret (Ok (Some connectionId))
        end
    | None => mret (Ok None)
    end;
  match checked with
  | Err e => mret (Err e)
  | Ok newConnectionId =>
      let updateParams :=
        mkUpdateParams newConnectionId defaultNewResourcePermission in
      (if bool_decide (apply_update updateParams c = c) then mret tt
       else
         execute (DbUpdate "connectors" (Connector.id c))
           (with_connectors
              (update_where_pk Connector.id (Connector.id c)
                 (apply_update updateParams))));;
      mret (Ok (pretty (Connector.id c)))
  end
  end
  end
  end.

(** ** [index.ts]: cleaning up a connector *)

(** The key is a string in the source and is compared with the numeric
    primary key by the database; it is taken here as the number it denotes. *)
Definition cleanupSlackConnector (w : World) (connectorId : ModelId)
    : M (Result Error unit) :=
  connector ← query (λ db,
    findOne (λ r, Connector.id r = connectorId) (connectors db));
  match connector with
  | None =>
      mret (Err ("Could not find connector with id " +:+ pretty connectorId))
  | Some connector =>
  configuration ← query (λ db,
    findOne (λ r, SlackConfiguration.connectorId r = connectorId)
            (slack_configurations db));
  match configuration with
  | None =>
      mret (Err ("Could not find configuration for connector id "
                 +:+ pretty connectorId))
  | Some configuration =>
  configurations ← query (λ db,
    findAll (λ r, SlackConfiguration.slackTeamId r
                  = SlackConfiguration.slackTeamId configuration)
            (slack_configurations db));
  deactivated ←
    (if bool_decide (length configurations = 1%nat) then
       match truthy (NANGO_SLACK_CONNECTOR_ID w) with
       | None => mret (Err "NANGO_SLACK_CONNECTOR_ID is not defined")
       | Some nango_id =>
       match truthy (SLACK_CLIENT_ID w) with
       | None => mret (Err "SLACK_CLIENT_ID is not defined")
       | Some client_id =>
       match truthy (SLACK_CLIENT_SECRET w) with
       | None => mret (Err "SLACK_CLIENT_SECRET is not defined")
       | Some client_secret =>
           accessToken ←
             call (GetAccessToken (Connector.connectionId connector))
                  (getAccessToken w (Connector.connectionId connector));
           deleteRes ←
             call (SlackAppsUninstall accessToken client_id client_secret)
                  (slack_apps_uninstall w accessToken client_id
                     client_secret);
           if negb (un_ok deleteRes) then
             mret (Err ("Could not uninstall the Slack app from the user's workspace. Error: "
                        +:+ un_error deleteRes))
           else
             nangoRes ←
               call (NangoDeleteConnection (Connector.connectionId connector)
                       nango_id)
                    (nangoDeleteConnection w
                       (Connector.connectionId connector) nango_id);
             match nangoRes with
             | Err e => mret (Err e)
             | Ok _ =>
                 logger LInfo
                   [("slackTeamId",
                     SlackConfiguration.slackTeamId configuration)]
                   "Deactivated the Slack app";;
                 mret (Ok tt)
             end
       end
       end
       end
     else
       logger LInfo
         [("slackTeamId", SlackConfiguration.slackTeamId configuration);
          ("activeConfigurations",
           pretty (Z.of_nat (length configurations) - 1))]
         "Skipping deactivation of the Slack app";;
       mret (Ok tt));
  match deactivated with
  | Err e => mret (Err e)
  | Ok _ =>
      execute (DbDestroy "slack_messages" connectorId)
        (with_slack_messages
           (destroy (λ r, SlackMessages.connectorId r = connectorId)));;
      execute (DbDestroy "slack_configurations" connectorId)
        (with_slack_configurations
           (destroy (λ r, SlackConfiguration.connectorId r = connectorId)));;
      mret (Ok tt)
  end
  end
  end.

(** ** [index.ts]: listing the permissions of the channels *)

(** [types/resources]: one entry of the answer of the permission retriever. *)
Module ConnectorResource.
Record t : Type := mk {
  provider : string;
  internalId : string;
  parentInternalId : option string;
  type : string;
  title : string;
  sourceUrl : string;
  expandable : bool;
  permission : ConnectorPermission;
}.
End ConnectorResource.

(** The [switch] that expands the requested capability. *)
Definition permissionToFilter (filterPermission : option ConnectorPermission)
    : list ConnectorPermission :=
  match filterPermission with
  | Some read => [read; read_write]
  | Some write => [write; read_write]
  | Some read_write => [read_write]
  | _ => []
  end.

(** [{ [Op.or]: alternatives }] on a column: the value has to be one of the
    alternatives; Sequelize drops the condition when the list is empty. *)
Definition Op_or (alternatives : list ConnectorPermission)
    (p : ConnectorPermission) : Prop :=
  alternatives = [] ∨ p ∈ alternatives.

(** The [where] object of the query: with a filter, the permission is put
    under [Op.or] with the alternatives of the filter. *)
Definition channel_where (connectorId : ModelId)
    (filterPermission : option ConnectorPermission) (ch : SlackChannel.t)
    : Prop :=
  match filterPermission with
  | Some _ =>
      SlackChannel.connectorId ch = connectorId
      ∧ Op_or (permissionToFilter filterPermission)
              (SlackChannel.permission ch)
  | None => SlackChannel.connectorId ch = connectorId
  end.

Global Instance channel_where_dec connectorId filterPermission ch :
  Decision (channel_where connectorId filterPermission ch).
Proof.
  unfold channel_where, Op_or. destruct filterPermission; apply _.
Defined.

(** [order: [["createdAt", "DESC"], ["slackChannelName", "ASC"]]].  The
    database compares names by its collation, which the sources do not fix;
    the order of the characters stands for it here, and no property below
    depends on the order of the names. *)
Definition channel_order (a b : SlackChannel.t) : Prop :=
  SlackChannel.createdAt b < SlackChannel.createdAt a
  ∨ (SlackChannel.createdAt a = SlackChannel.createdAt b
     ∧ String.le (SlackChannel.slackChannelName a)
                 (SlackChannel.slackChannelName b)).

Global Instance channel_order_dec a b : Decision (channel_order a b).
Proof. unfold channel_order, String.le. apply _. Defined.

(** The object built for one channel by the [map] callback. *)
Definition to_resource (slackTeamId : string) (ch : SlackChannel.t)
    : ConnectorResource.t :=
  ConnectorResource.mk "slack" (SlackChannel.slackChannelId ch) None "channel"
    (SlackChannel.slackChannelName ch)
    ("https://app.slack.com/client/" +:+ slackTeamId +:+ "/"
       +:+ SlackChannel.slackChannelId ch)
    false (SlackChannel.permission ch).

Definition retrieveSlackConnectorPermissions (connectorId : ModelId)
    (parentInternalId : option string)
    (filterPermission : option ConnectorPermission)
    : M (Result Error (list ConnectorResource.t)) :=
  match truthy parentInternalId with
  | Some _ =>
      mret (Err "Slack connector does not support permission retrieval with `parentInternalId`")
  | None =>
  c ← query (λ db,
    findOne (λ r, Connector.id r = connectorId) (connectors db));
  match c with
  | None =>
      logger LError [("connectorId", pretty connectorId)]
        "Connector not found";;
      mret (Err "Connector not found")
  | Some c =>
  slackConfig ← query (λ db,
    findOne (λ r, SlackConfiguration.connectorId r = connectorId)
            (slack_configurations db));
  match slackConfig with
  | None =>
      logger LError [("connectorId", pretty connectorId)]
        "Slack configuration not found";;
      mret (Err "Slack configuration not found")
  | Some slackConfig =>
      slackChannels ← query (λ db,
        merge_sort channel_order
          (findAll (channel_where connectorId filterPermission)
                   (slack_channels db)));
      let resources :=
        to_resource (SlackConfiguration.slackTeamId slackConfig)
          <$> slackChannels in
      mret (Ok resources)
  end
  end
  end.

(** ** [index.ts]: setting the permissions of the channels *)

(** [["read", "read_write"].includes(p)]. *)
Definition includes_read (p : ConnectorPermission) : bool :=
  match p with
  | read | read_write => true
  | _ => false
  end.

(** The [reduce] that indexes the rows found by their Slack channel id: a
    later row replaces an earlier one stored under the same key.  The map
    holds the own properties of the object [channels].  (A row stored under
    the id "__proto__" becomes the prototype of the object instead: a lookup
    of "__proto__" answers that row all the same, and the members that the
    object then inherits from the row are not followed.  The rows read are
    those of the ids of the batch, so this needs "__proto__" in the
    batch.) *)
Definition index_channels (rows : list SlackChannel.t)
    : gmap string SlackChannel.t :=
  foldl (λ acc c, <[SlackChannel.slackChannelId c := c]> acc) ∅ rows.

(** The names of the members that the object literal [{}] inherits from
    [Object.prototype]. *)
Definition Object_prototype_names : list string :=
  ["constructor"; "__defineGetter__"; "__defineSetter__"; "hasOwnProperty";
   "__lookupGetter__"; "__lookupSetter__"; "isPrototypeOf";
   "propertyIsEnumerable"; "toString"; "valueOf"; "__proto__";
   "toLocaleString"].

(** What [channels[id]] answers when it is not [undefined]: the row stored
    under the id or, for an id that is no own property, the member of that
    name inherited from [Object.prototype], which is truthy and is no
    channel. *)
Inductive member : Type :=
| Row (channel : SlackChannel.t)
| Inherited.

(** [channels[id]]. *)
Definition get_member (channels : gmap string SlackChannel.t) (id : string)
    : option member :=
  match channels !! id with
  | Some channel => Some (Row channel)
  | None =>
      if bool_decide (id ∈ Object_prototype_names) then Some Inherited
      else None
  end.

(** [try { await p } catch (e) { ... }]: a rejection becomes a value. *)
Definition settle {A} (m : M A) : M (Result Error A) := λ db,
  match m db with
  | (Returned a, db1, t1) => (Returned (Ok a), db1, t1)
  | (Thrown e, db1, t1) => (Returned (Err e), db1, t1)
  end.

(** The body of the function handed to [q.add] for one channel.  The closure
    shares the variable [shouldGarbageCollect] with the enclosing call: the
    task receives its current value and returns the new one.  [channel] is the
    instance read before the loop. *)
Definition permission_task (w : World) (connectorId : ModelId)
    (channel : SlackChannel.t) (permission : ConnectorPermission)
    (shouldGarbageCollect : bool) : M bool :=
  let oldPermission := SlackChannel.permission channel in
  if bool_decide (oldPermission = permission) then mret shouldGarbageCollect
  else
    execute (DbUpdate "slack_channels" (SlackChannel.id channel))
      (with_slack_channels
         (update_where_pk SlackChannel.id (SlackChannel.id channel)
            (SlackChannel.set_permission permission)));;
    (if negb (includes_read oldPermission) && includes_read permission then
       res ←
         call (LaunchSlackBotJoinedWorkflow (pretty connectorId)
                 (SlackChannel.slackChannelId channel))
              (launchSlackBotJoinedWorkflow w (pretty connectorId)
                 (SlackChannel.slackChannelId channel));
       match res with
       | Err e => throw e
       | Ok _ => mret tt
       end
     else mret tt);;
    if includes_read oldPermission && negb (includes_read permission) then
      mret true
    else mret shouldGarbageCollect.

(** The same body when [channel] is an inherited member: [channel.permission]
    is [undefined], which equals no permission, and [channel.update] is not a
    function, so the call of it throws a [TypeError]. *)
Definition inherited_task (shouldGarbageCollect : bool) : M bool :=
  throw "channel.update is not a function".

(** The function handed to [q.add] for what [channels[id]] answered. *)
Definition queued_task (w : World) (connectorId : ModelId) (channel : member)
    (permission : ConnectorPermission) : bool → M bool :=
  match channel with
  | Row channel => permission_task w connectorId channel permission
  | Inherited => inherited_task
  end.

(** The [for] loop over [Object.entries(permissions)]: an id for which
    [channels[id]] is falsy is logged and skipped, every other entry adds one
    task.  The log lines of the loop are placed before the events of the
    tasks. *)
Fixpoint enqueue (w : World) (connectorId : ModelId)
    (channels : gmap string SlackChannel.t)
    (entries : list (string * ConnectorPermission))
    : M (list (bool → M bool)) :=
  match entries with
  | [] => mret []
  | (id, permission) :: entries =>
      match get_member channels id with
      | None =>
          logger LError
            [("connectorId", pretty connectorId); ("channelId", id)]
            "Could not find channel in DB";;
          enqueue w connectorId channels entries
      | Some channel =>
          promises ← enqueue w connectorId channels entries;
          mret (queued_task w connectorId channel permission :: promises)
      end
  end.

(** [await Promise.all(promises)] over the tasks of the queue, taken one
    after the other in the order of the entries.  When a task is rejected,
    [Promise.all] rejects with its error and the call goes on to its [catch]
    at once: what the tasks still in the queue do after that is no effect of
    the call.  Without a rejection the answer is the final value of
    [shouldGarbageCollect].  (The queue runs up to ten tasks at a time; the
    model follows the schedule in which each task ends before the next one
    starts.) *)
Fixpoint promise_all (promises : list (bool → M bool))
    (shouldGarbageCollect : bool) : M (Result Error bool) :=
  match promises with
  | [] => mret (Ok shouldGarbageCollect)
  | p :: promises =>
      r ← settle (p shouldGarbageCollect);
      match r with
      | Ok flag => promise_all promises flag
      | Err e => mret (Err e)
      end
  end.

(** [permissions] is the list [Object.entries(permissions)] of the record
    received. *)
Definition setSlackConnectorPermissions (w : World) (connectorId : ModelId)
    (permissions : list (string * ConnectorPermission))
    : M (Result Error unit) :=
  connector ← query (λ db,
    findOne (λ r, Connector.id r = connectorId) (connectors db));
  match connector with
  | None =>
      mret (Err ("Connector not found with id " +:+ pretty connectorId))
  | Some connector =>
  configuration ← query (λ db,
    findOne (λ r, SlackConfiguration.connectorId r = connectorId)
            (slack_configurations db));
  match configuration with
  | None =>
      mret (Err ("Could not find configuration for connector id "
                 +:+ pretty connectorId))
  | Some configuration =>
  channels ← query (λ db,
    index_channels
      (findAll (λ r, SlackChannel.connectorId r = connectorId
                     ∧ SlackChannel.slackChannelId r ∈ permissions.*1)
               (slack_channels db)));
  promises ← enqueue w connectorId channels permissions;
  settled ← promise_all promises false;
  match settled with
  | Err e => mret (Err e)
  | Ok shouldGarbageCollect =>
      if shouldGarbageCollect : bool then
        res ←
          call (LaunchSlackGarbageCollectWorkflow (pretty connectorId))
               (launchSlackGarbageCollectWorkflow w (pretty connectorId));
        match res with
        | Err e => mret (Err e)
        | Ok _ => mret (Ok tt)
        end
      else mret (Ok tt)
  end
  end
  end.

(** ** Observations on a trace *)

(** The number of events of a kind in a trace. *)
Definition count_events (P : event → Prop) `{∀ e, Decision (P e)}
    (tr : list event) : nat :=
  length (filter P tr).

(** Every event of kind [P] comes before every event of kind [Q]. *)
Definition precedes (P Q : event → Prop) (tr : list event) : Prop :=
  ∀ i j e1 e2,
    tr !! i = Some e1 → tr !! j = Some e2 → P e1 → Q e2 → (i < j)%nat.

(** The kinds of events that the properties count or order. *)
Definition is_uninstall (e : event) : Prop :=
  match e with SlackAppsUninstall _ _ _ => True | _ => False end.
Definition is_connection_delete (e : event) : Prop :=
  match e with NangoDeleteConnection _ _ => True | _ => False end.
Definition is_revoke (e : event) : Prop :=
  is_uninstall e ∨ is_connection_delete e.
Definition is_destroy (e : event) : Prop :=
  match e with DbDestroy _ _ => True | _ => False end.
Definition is_store_write (e : event) : Prop :=
  match e with
  | DbCreate _ _ | DbUpdate _ _ | DbDestroy _ _ => True
  | _ => False
  end.

Definition is_bot_join_for (connectorId : ModelId) (id : string) (e : event)
    : Prop :=
  e = LaunchSlackBotJoinedWorkflow (pretty connectorId) id.
Definition is_bot_join (e : event) : Prop :=
  match e with LaunchSlackBotJoinedWorkflow _ _ => True | _ => False end.
Definition is_garbage_collect (e : event) : Prop :=
  match e with LaunchSlackGarbageCollectWorkflow _ => True | _ => False end.
Definition is_channel_update (e : event) : Prop :=
  match e with DbUpdate _ _ => True | _ => False end.

Global Instance is_uninstall_dec e : Decision (is_uninstall e).
Proof. destruct e; apply _. Defined.
Global Instance is_connection_delete_dec e :
  Decision (is_connection_delete e).
Proof. destruct e; apply _. Defined.
Global Instance is_revoke_dec e : Decision (is_revoke e).
Proof. apply _. Defined.
Global Instance is_destroy_dec e : Decision (is_destroy e).
Proof. destruct e; apply _. Defined.
Global Instance is_store_write_dec e : Decision (is_store_write e).
Proof. destruct e; apply _. Defined.

Global Instance is_bot_join_for_dec connectorId id e :
  Decision (is_bot_join_for connectorId id e).
Proof. unfold is_bot_join_for. apply _. Defined.
Global Instance is_bot_join_dec e : Decision (is_bot_join e).
Proof. destruct e; apply _. Defined.
Global Instance is_garbage_collect_dec e : Decision (is_garbage_collect e).
Proof. destruct e; apply _. Defined.
Global Instance is_channel_update_dec e : Decision (is_channel_update e).
Proof. destruct e; apply _. Defined.

(** ** The vocabulary of the specification *)

(** The permission sets of the specification: what a requested capability
    matches.  Without a filter every permission matches; the specification
    gives no set for a requested capability [none]. *)
Definition capability_matches (filterPermission : option ConnectorPermission)
    (p : ConnectorPermission) : Prop :=
  match filterPermission with
  | Some read => p = read ∨ p = read_write
  | Some write => p = write ∨ p = read_write
  | Some read_write => p = read_write
  | Some none => False
  | None => True
  end.

Global Instance capability_matches_dec filterPermission p :
  Decision (capability_matches filterPermission p).
Proof.
  unfold capability_matches. destruct filterPermission as [[]|]; apply _.
Defined.

(** The old permission gives no read access and the new one does. *)
Definition gains_read (old new : ConnectorPermission) : bool :=
  negb (includes_read old) && includes_read new.

(** The old permission gives read access and the new one does not. *)
Definition loses_read (old new : ConnectorPermission) : bool :=
  includes_read old && negb (includes_read new).

(** The row that a call uses for the Slack channel [id] of a connector: the
    last one stored for that connector under that id. *)
Definition channel_of (db : DB) (connectorId : ModelId) (id : string)
    : option SlackChannel.t :=
  last (filter (λ r, SlackChannel.connectorId r = connectorId
                     ∧ SlackChannel.slackChannelId r = id)
               (slack_channels db)).

(** ** The steps of a call that sets permissions *)

(** The pieces of what [setSlackConnectorPermissions] computes, as pure
    functions of the tasks of the batch. *)
Section batch.
Context (w : World) (connectorId : ModelId).

(** A task on a row: the channel instance and the permission asked. *)
Local Abbreviation task :=
  (SlackChannel.t * ConnectorPermission)%type (only parsing).

(** The store after a task. *)
Definition task_db (t : task) (db : DB) : DB :=
  if bool_decide (SlackChannel.permission t.1 = t.2) then db
  else with_slack_channels
         (update_where_pk SlackChannel.id (SlackChannel.id t.1)
            (SlackChannel.set_permission t.2)) db.

(** The events of a task, in order. *)
Definition task_trace (t : task) : list event :=
  if bool_decide (SlackChannel.permission t.1 = t.2) then []
  else DbUpdate "slack_channels" (SlackChannel.id t.1)
       :: (if gains_read (SlackChannel.permission t.1) t.2
           then [LaunchSlackBotJoinedWorkflow (pretty connectorId)
                   (SlackChannel.slackChannelId t.1)]
           else []).

(** The error a task throws, if it throws. *)
Definition task_rejection (t : task) : option Error :=
  if gains_read (SlackChannel.permission t.1) t.2 then
    match launchSlackBotJoinedWorkflow w (pretty connectorId)
            (SlackChannel.slackChannelId t.1) with
    | Err e => Some e
    | Ok _ => None
    end
  else None.

(** The task sets [shouldGarbageCollect]. *)
Definition task_loses_read (t : task) : bool :=
  loses_read (SlackChannel.permission t.1) t.2.

(** What the loop puts in the queue, in the order of the entries. *)
Definition queued (channels : gmap string SlackChannel.t)
    (entries : list (string * ConnectorPermission))
    : list (member * ConnectorPermission) :=
  omap (λ e, (λ m, (m, e.2)) <$> get_member channels e.1) entries.

(** The log line for an id without a row. *)
Definition missing_log (id : string) : event :=
  Log LError [("connectorId", pretty connectorId); ("channelId", id)]
    "Could not find channel in DB".

(** The log lines written by the loop. *)
Definition missing_logs (channels : gmap string SlackChannel.t)
    (entries : list (string * ConnectorPermission)) : list event :=
  omap (λ e, match get_member channels e.1 with
             | None => Some (missing_log e.1)
             | Some _ => None
             end) entries.

(** The index of the rows read for a batch. *)
Definition batch_channels (permissions : list (string * ConnectorPermission))
    (db : DB) : gmap string SlackChannel.t :=
  index_channels
    (findAll (λ r, SlackChannel.connectorId r = connectorId
                   ∧ SlackChannel.slackChannelId r ∈ permissions.*1)
             (slack_channels db)).

(** The first rejection among the tasks of a queue. *)
Fixpoint rejection (queue : list (member * ConnectorPermission))
    : option Error :=
  match queue with
  | [] => None
  | (Inherited, _) :: _ => Some "channel.update is not a function"
  | (Row ch, p) :: queue =>
      match task_rejection (ch, p) with
      | Some e => Some e
      | None => rejection queue
      end
  end.

(** The tasks on rows that run before the call answers: all of them
    without a rejection, and otherwise those up to the first rejected task,
    that task included when it is a task on a row. *)
Fixpoint executed (queue : list (member * ConnectorPermission)) : list task :=
  match queue with
  | [] => []
  | (Inherited, _) :: _ => []
  | (Row ch, p) :: queue =>
      (ch, p) :: match task_rejection (ch, p) with
                 | Some _ => []
                 | None => executed queue
                 end
  end.

(** The events after [Promise.all]: the launch of the garbage collection,
    when no task was rejected and some task lost read access. *)
Definition collect_trace (queue : list (member * ConnectorPermission))
    : list event :=
  match rejection queue with
  | Some _ => []
  | None =>
      if existsb task_loses_read (executed queue)
      then [LaunchSlackGarbageCollectWorkflow (pretty connectorId)]
      else []
  end.

(** The value returned once the connector and its configuration are found. *)
Definition batch_result (queue : list (member * ConnectorPermission))
    : Result Error unit :=
  match rejection queue with
  | Some e => Err e
  | None =>
      if existsb task_loses_read (executed queue) then
        match launchSlackGarbageCollectWorkflow w (pretty connectorId) with
        | Err e => Err e
        | Ok _ => Ok tt
        end
      else Ok tt
  end.

End batch.

(** What [channels[id]] answers for an id of the batch, read off the
    store. *)
Definition member_of (db : DB) (connectorId : ModelId) (id : string)
    : option member :=
  match channel_of db connectorId id with
  | Some channel => Some (Row channel)
  | None =>
      if bool_decide (id ∈ Object_prototype_names) then Some Inherited
      else None
  end.

(** The queue of a batch, read off the store. *)
Definition batch_queue (db : DB) (connectorId : ModelId)
    (permissions : list (string * ConnectorPermission))
    : list (member * ConnectorPermission) :=
  omap (λ e, (λ m, (m, e.2)) <$> member_of db connectorId e.1) permissions.

(** The tasks on rows of a batch, read off the store. *)
Definition batch_tasks (db : DB) (connectorId : ModelId)
    (permissions : list (string * ConnectorPermission))
    : list (SlackChannel.t * ConnectorPermission) :=
  omap (λ e, (λ ch, (ch, e.2)) <$> channel_of db connectorId e.1) permissions.

(** The log lines of a batch, read off the store. *)
Definition batch_logs (db : DB) (connectorId : ModelId)
    (permissions : list (string * ConnectorPermission)) : list event :=
  omap (λ e, match member_of db connectorId e.1 with
             | None => Some (missing_log connectorId e.1)
             | Some _ => None
             end) permissions.

(** What a task does to one row of the table of channels. *)
Definition task_row (t : SlackChannel.t * ConnectorPermission)
    (r : SlackChannel.t) : SlackChannel.t :=
  if bool_decide (SlackChannel.permission t.1 = t.2) then r
  else if bool_decide (SlackChannel.id r = SlackChannel.id t.1)
       then SlackChannel.set_permission t.2 r
       else r.

(** What the tasks of a batch, one after the other, do to one row. *)
Definition apply_tasks (tasks : list (SlackChannel.t * ConnectorPermission))
    (r : SlackChannel.t) : SlackChannel.t :=
  foldl (λ r t, task_row t r) r tasks.

(** No id of the batch is the name of a member of [Object.prototype]. *)
Definition plain_ids (permissions : list (string * ConnectorPermission))
    : Prop :=
  ∀ id, id ∈ permissions.*1 → id ∉ Object_prototype_names.

(** Every bot-join launch that the batch asks for succeeds. *)
Definition joins_succeed (w : World) (db : DB) (connectorId : ModelId)
    (permissions : list (string * ConnectorPermission)) : Prop :=
  ∀ id p ch,
    (id, p) ∈ permissions →
    channel_of db connectorId id = Some ch →
    gains_read (SlackChannel.permission ch) p = true →
    isErr (launchSlackBotJoinedWorkflow w (pretty connectorId) id) = false.

(** ** Statements that the code does not satisfy *)

(** The claim as stated: a call with a non-null [parentInternalId] returns an
    error and touches no row. *)
Definition rejects_parent (parentInternalId : option string) : Prop :=
  ∀ connectorId filterPermission db,
    ∃ e, retrieveSlackConnectorPermissions connectorId parentInternalId
           filterPermission db = (Returned (Err e), db, []).

(** The claim as stated: the rows of the connector are deleted, and every
    deletion in the store comes before every call of the external revoke. *)
Definition deletes_then_revokes (w : World) (connectorId : ModelId)
    (db : DB) : Prop :=
  let run := cleanupSlackConnector w connectorId db in
  (∀ ch, ch ∈ slack_channels (db_of run)
         → SlackChannel.connectorId ch ≠ connectorId)
  ∧ (∀ cfg, cfg ∈ slack_configurations (db_of run)
            → SlackConfiguration.connectorId cfg ≠ connectorId)
  ∧ precedes is_destroy is_revoke (trace_of run).

(** The claim as stated, for a connector whose configuration is the only
    one of its team: the clean-up issues exactly one external revoke, that
    is, one call of [apps.uninstall] and one deletion of the connection. *)
Definition revokes_once (w : World) (connectorId : ModelId) (db : DB)
    : Prop :=
  let run := cleanupSlackConnector w connectorId db in
  count_events is_uninstall (trace_of run) = 1%nat
  ∧ count_events is_connection_delete (trace_of run) = 1%nat.

(** The claim as stated, for the loss of read access: whenever a channel of
    the batch goes from a permission with read access to one without, the
    call launches the garbage-collection workflow. *)
Definition collects_on_read_loss (w : World) (connectorId : ModelId)
    (permissions : list (string * ConnectorPermission)) (db : DB) : Prop :=
  ∀ id p ch,
    (id, p) ∈ permissions →
    channel_of db connectorId id = Some ch →
    loses_read (SlackChannel.permission ch) p = true →
    count_events is_garbage_collect
      (trace_of (setSlackConnectorPermissions w connectorId permissions db))
    = 1%nat.


(** ** A sample store and sample services *)

Definition sample_db : DB :=
  mkDB [Connector.mk 1 "slack" "conn-1" "key" "w1" "slack-ds" read_write;
        Connector.mk 2 "slack" "conn-2" "key" "w2" "slack-ds" read_write]
       [SlackConfiguration.mk 1 "T1" 1 false;
        SlackConfiguration.mk 2 "T9" 2 false]
       [SlackChannel.mk 1 1 "CA" "a" read 10;
        SlackChannel.mk 2 1 "CB" "b" write 20;
        SlackChannel.mk 3 1 "CC" "c" read_write 20;
        SlackChannel.mk 4 1 "CD" "d" none 5;
        SlackChannel.mk 5 2 "CA" "a" read 10]
       [SlackMessages.mk 1 1 "CA" "1.0" "doc1";
        SlackMessages.mk 2 2 "CA" "1.0" "doc2"].

Definition shared_db : DB :=
  mkDB [Connector.mk 1 "slack" "conn-1" "key" "w1" "slack-ds" read_write;
        Connector.mk 2 "slack" "conn-2" "key" "w2" "slack-ds" read_write]
       [SlackConfiguration.mk 1 "T1" 1 false;
        SlackConfiguration.mk 2 "T1" 2 true]
       [SlackChannel.mk 1 1 "CA" "a" read 10;
        SlackChannel.mk 2 2 "CA" "a" read 10]
       [SlackMessages.mk 1 1 "CA" "1.0" "doc1";
        SlackMessages.mk 2 2 "CA" "1.0" "doc2"].

Definition sample_world : World :=
  mkWorld (Some "nango-slack") (Some "client-id") (Some "client-secret")
    (λ _ connectionId, "xoxb-" +:+ connectionId)
    (λ _ connectionId,
       if bool_decide (connectionId = "conn-1b") then Some "T1"
       else if bool_decide (connectionId = "conn-gone") then None
       else Some "T2")
    (λ _ _, Ok tt)
    (λ connectionId, "xoxb-" +:+ connectionId)
    (λ token,
       if bool_decide (token = "xoxb-revoked")
       then mkTeamInfo false (Some "invalid_auth") None
       else mkTeamInfo true None (Some "T1"))
    (λ _ _ _, mkUninstall true "")
    (λ _, Ok "workflow")
    (λ _ channelId,
       if bool_decide (channelId = "CD") then Err "join failed"
       else Ok "workflow")
    (λ _, Ok "workflow").

(** The sample services with [SLACK_CLIENT_SECRET] not set. *)
Definition unconfigured_world : World :=
  mkWorld (Some "nango-slack") (Some "client-id") None
    (nango_getToken sample_world) (nango_getConnection sample_world)
    (nangoDeleteConnection sample_world) (getAccessToken sample_world)
    (slack_team_info sample_world) (slack_apps_uninstall sample_world)
    (launchSlackSyncWorkflow sample_world)
    (launchSlackBotJoinedWorkflow sample_world)
    (launchSlackGarbageCollectWorkflow sample_world).

(** The sample services with a Slack that refuses [apps.uninstall]. *)
Definition refusing_world : World :=
  mkWorld (Some "nango-slack") (Some "client-id") (Some "client-secret")
    (nango_getToken sample_world) (nango_getConnection sample_world)
    (nangoDeleteConnection sample_world) (getAccessToken sample_world)
    (slack_team_info sample_world)
    (λ _ _ _, mkUninstall false "invalid_auth")
    (launchSlackSyncWorkflow sample_world)
    (launchSlackBotJoinedWorkflow sample_world)
    (launchSlackGarbageCollectWorkflow sample_world).

(** ** [index.ts]: the titles of channels *)

Definition retrieveSlackChannelsTitles (connectorId : ModelId)
    (internalIds : list string) : M (Result Error (gmap string string)) :=
  channels ← query (λ db,
    findAll (λ r, SlackChannel.connectorId r = connectorId
                  ∧ SlackChannel.slackChannelId r ∈ internalIds)
            (slack_channels db));
  let titles :=
    foldl (λ titles ch,
             <[SlackChannel.slackChannelId ch
               := SlackChannel.slackChannelName ch]> titles)
          (∅ : gmap string string) channels in
  mret (Ok titles).

(** ** Invariants of the store *)

(** A connector stores a Slack channel id at most once. *)
Definition channel_ids_unique (db : DB) : Prop :=
  NoDup ((λ r, (SlackChannel.connectorId r, SlackChannel.slackChannelId r))
           <$> slack_channels db).

(** Configuration and channel rows belong to a connector of the store. *)
Definition references_valid (db : DB) : Prop :=
  (∀ r, r ∈ slack_configurations db
        → SlackConfiguration.connectorId r ∈ Connector.id <$> connectors db)
  ∧ (∀ r, r ∈ slack_channels db
          → SlackChannel.connectorId r ∈ Connector.id <$> connectors db).

(** Log lines, as opposed to external calls and writes to the store. *)
Definition is_log (e : event) : Prop :=
  match e with Log _ _ _ => True | _ => False end.

Global Instance is_log_dec e : Decision (is_log e).
Proof. destruct e; apply _. Defined.

(** * Properties *)

(** ** The object-relational layer *)

Section orm.
Context {R : Type} (P : R → Prop) `{∀ r, Decision (P r)}.

Lemma findOne_Some (rows : list R) (r : R) :
  findOne P rows = Some r → r ∈ rows ∧ P r.
Proof.
  unfold findOne. intros Hhead.
  assert (r ∈ filter P rows) as Hin.
  { destruct (filter P rows); simplify_eq/=. left. }
  apply list_elem_of_filter in Hin. tauto.
Qed.

Lemma findOne_None (rows : list R) :
  findOne P rows = None ↔ ∀ r, r ∈ rows → ¬ P r.
Proof.
  unfold findOne. rewrite head_None. split.
  - intros Hnil r Hr HP.
    assert (r ∈ filter P rows) as Hin by (apply list_elem_of_filter; auto).
    rewrite Hnil in Hin. by apply not_elem_of_nil in Hin.
  - intros Hno. induction rows as [|x rows IH]; [done|].
    rewrite filter_cons. destruct (decide (P x)) as [HP|HP].
    + exfalso. apply (Hno x); [left | done].
    + apply IH. intros r Hr. apply Hno. by right.
Qed.

Lemma findOne_is_Some (rows : list R) :
  (∃ r, r ∈ rows ∧ P r) → is_Some (findOne P rows).
Proof.
  intros (r & Hr & HP). destruct (findOne P rows) eqn:Hfind; [eauto|].
  exfalso. by apply (proj1 (findOne_None rows) Hfind r).
Qed.

(** An update that leaves the condition of a query alone does not change
    which row the query finds first. *)
Lemma findOne_fmap (f : R → R) (rows : list R) :
  (∀ r, P (f r) ↔ P r) →
  findOne P (f <$> rows) = f <$> findOne P rows.
Proof.
  intros Hf. unfold findOne. induction rows as [|x rows IH]; [done|].
  rewrite fmap_cons, !filter_cons.
  destruct (decide (P (f x))) as [HP|HP], (decide (P x)) as [HP'|HP'];
    try done; exfalso; [by apply HP', Hf | by apply HP, Hf].
Qed.

Lemma findAll_fmap (f : R → R) (rows : list R) :
  (∀ r, P (f r) ↔ P r) →
  findAll P (f <$> rows) = f <$> findAll P rows.
Proof.
  intros Hf. unfold findAll. induction rows as [|x rows IH]; [done|].
  rewrite fmap_cons, !filter_cons.
  destruct (decide (P (f x))) as [HP|HP], (decide (P x)) as [HP'|HP'];
    rewrite ?fmap_cons, ?IH; try done; exfalso;
    [by apply HP', Hf | by apply HP, Hf].
Qed.

End orm.

(** Unfolds the monadic plumbing of a computation applied to a store. *)
Ltac run :=
  cbv [mbind M_bind mret M_ret query execute call logger throw transaction
       settle result_of db_of trace_of]; simpl.

(** ** The bot-enabled flag *)

Lemma botEnabled_after_save (rows : list SlackConfiguration.t)
    (connectorId : ModelId) (b : bool) (cfg : SlackConfiguration.t) :
  findOne (λ r, SlackConfiguration.connectorId r = connectorId) rows
    = Some cfg →
  findOne (λ r, SlackConfiguration.connectorId r = connectorId)
    (update_where_pk SlackConfiguration.id (SlackConfiguration.id cfg)
       (SlackConfiguration.set_botEnabled b) rows)
    = Some (SlackConfiguration.set_botEnabled b cfg).
Proof.
  intros Hfind. unfold update_where_pk.
  rewrite findOne_fmap, Hfind; simpl.
  - by rewrite bool_decide_eq_true_2.
  - intros r. by case_bool_decide.
Qed.

(** C10. Round trip of the bot-enabled flag.  When the connector has a
    [SlackConfiguration] row, [toggleSlackbot connectorId b] returns [Ok] and
    a following [getBotEnabled connectorId] returns [Ok b]; when it has none,
    both operations return an error, leave the store as it was and perform no
    write. *)
Theorem toggleSlackbot_getBotEnabled_roundtrip (db : DB)
    (connectorId : ModelId) (b : bool) :
  ((∃ r, r ∈ slack_configurations db
         ∧ SlackConfiguration.connectorId r = connectorId) →
   result_of (toggleSlackbot connectorId b db) = Returned (Ok tt)
   ∧ result_of
       (getBotEnabled connectorId (db_of (toggleSlackbot connectorId b db)))
     = Returned (Ok b))
  ∧ ((∀ r, r ∈ slack_configurations db
           → SlackConfiguration.connectorId r ≠ connectorId) →
     (∃ e, toggleSlackbot connectorId b db = (Returned (Err e), db, []))
     ∧ (∃ e, getBotEnabled connectorId db = (Returned (Err e), db, []))).
Proof.
  split.
  - intros Hrow.
    destruct (findOne_is_Some
                (λ r, SlackConfiguration.connectorId r = connectorId)
                _ Hrow) as [cfg Hcfg].
    unfold toggleSlackbot, getBotEnabled. run. rewrite Hcfg. simpl.
    split; [done|].
    by rewrite (botEnabled_after_save _ _ b cfg Hcfg).
  - intros Hno.
    assert (findOne (λ r, SlackConfiguration.connectorId r = connectorId)
              (slack_configurations db) = None) as Hnone
      by (by apply findOne_None).
    unfold toggleSlackbot, getBotEnabled. run. rewrite Hnone. simpl.
    split; eauto.
Qed.

Lemma toggleSlackbot_getBotEnabled_roundtrip_witness :
  (result_of (toggleSlackbot 1 true sample_db) = Returned (Ok tt)
   ∧ result_of (getBotEnabled 1 (db_of (toggleSlackbot 1 true sample_db)))
     = Returned (Ok true))
  ∧ ((∃ e, toggleSlackbot 7 true sample_db
           = (Returned (Err e), sample_db, []))
     ∧ (∃ e, getBotEnabled 7 sample_db = (Returned (Err e), sample_db, []))).
Proof.
  split.
  - apply (toggleSlackbot_getBotEnabled_roundtrip sample_db 1 true).
    exists (SlackConfiguration.mk 1 "T1" 1 false). split; [|reflexivity].
    apply list_elem_of_In. simpl. auto.
  - apply (toggleSlackbot_getBotEnabled_roundtrip sample_db 7 true).
    intros r Hr. apply list_elem_of_In in Hr. simpl in Hr.
    destruct Hr as [<-|[<-|[]]]; simpl; lia.
Defined.

(** ** Listing permissions under a parent *)

(** The empty string is a non-null parent that the guard lets through: the
    call reads the store and answers with the channels. *)
Lemma retrieve_empty_parent_counterexample :
  Some "" ≠ (None : option string)
  ∧ result_of
      (retrieveSlackConnectorPermissions 1 (Some "") (Some read_write)
         sample_db)
    = Returned (Ok [to_resource "T1" (SlackChannel.mk 3 1 "CC" "c" read_write 20)])
  ∧ ¬ rejects_parent (Some "").
Proof.
  split; [done|]. split; [reflexivity|].
  intros Hclaim.
  destruct (Hclaim 1 (Some read_write) sample_db) as [e He].
  vm_compute in He. discriminate He.
Qed.

(** C9 (amended). A call whose [parentInternalId] is a non-empty string
    returns the same error whatever the store holds, leaves the store as it
    was and performs no write and no external call. *)
Theorem retrieve_with_parent_rejected (connectorId : ModelId)
    (parentInternalId : string)
    (filterPermission : option ConnectorPermission) (db : DB) :
  parentInternalId ≠ "" →
  retrieveSlackConnectorPermissions connectorId (Some parentInternalId)
    filterPermission db
  = (Returned
       (Err "Slack connector does not support permission retrieval with `parentInternalId`"),
     db, []).
Proof.
  intros Hne. unfold retrieveSlackConnectorPermissions, truthy.
  by rewrite bool_decide_eq_false_2.
Qed.

Lemma retrieve_with_parent_rejected_witness :
  "C0PARENT" ≠ ""
  ∧ retrieveSlackConnectorPermissions 1 (Some "C0PARENT") (Some read)
      sample_db
    = (Returned
         (Err "Slack connector does not support permission retrieval with `parentInternalId`"),
       sample_db, []).
Proof.
  split; [done|].
  apply (retrieve_with_parent_rejected 1 "C0PARENT" (Some read) sample_db).
  done.
Defined.

(** ** Updating a connector *)

(** C8. [updateSlackConnector] never changes the Slack team binding.  No call
    changes the table of Slack configurations; and when the new connection
    resolves to a team id that is missing or differs from the [slackTeamId]
    of the connector's configuration, the call returns the
    [connector_oauth_target_mismatch] error and leaves the whole store,
    hence the connector row, as it was. *)
Theorem updateSlackConnector_keeps_team (w : World) (db : DB)
    (connectorId : ModelId) (connectionId : option string)
    (defaultNewResourcePermission : option ConnectorPermission) :
  slack_configurations
    (db_of (updateSlackConnector w connectorId connectionId
              defaultNewResourcePermission db))
  = slack_configurations db
  ∧ ∀ nango_id c cfg newConnectionId,
      truthy (NANGO_SLACK_CONNECTOR_ID w) = Some nango_id →
      findOne (λ r, Connector.id r = connectorId) (connectors db) = Some c →
      findOne (λ r, SlackConfiguration.connectorId r = connectorId)
        (slack_configurations db) = Some cfg →
      truthy connectionId = Some newConnectionId →
      (∀ team, truthy (nango_getConnection w nango_id newConnectionId)
               = Some team
               → team ≠ SlackConfiguration.slackTeamId cfg) →
      result_of (updateSlackConnector w connectorId connectionId
                   defaultNewResourcePermission db)
      = Returned (Err target_mismatch)
      ∧ error_type target_mismatch = "connector_oauth_target_mismatch"
      ∧ db_of (updateSlackConnector w connectorId connectionId
                 defaultNewResourcePermission db) = db.
Proof.
  split.
  - unfold updateSlackConnector.
    destruct (truthy (NANGO_SLACK_CONNECTOR_ID w)); [|done]. run.
    destruct (findOne _ (connectors db)); [|done].
    destruct (findOne _ (slack_configurations db)) as [cfg|]; [|done].
    destruct (truthy connectionId) as [conn|]; simpl;
      [|by case_bool_decide].
    destruct (truthy (nango_getConnection w s conn)) as [team|]; [|done].
    case_bool_decide; [done|]. simpl. by case_bool_decide.
  - intros nango_id c cfg conn Henv Hc Hcfg Hconn Hteam.
    unfold updateSlackConnector. rewrite Henv. run.
    rewrite Hc, Hcfg, Hconn. simpl.
    destruct (truthy (nango_getConnection w nango_id conn)) as [team|] eqn:Ht;
      [|done].
    rewrite bool_decide_eq_true_2 by (by apply Hteam). done.
Qed.

Lemma updateSlackConnector_keeps_team_witness :
  result_of (updateSlackConnector sample_world 1 (Some "conn-other") None
               sample_db)
  = Returned (Err target_mismatch)
  ∧ error_type target_mismatch = "connector_oauth_target_mismatch"
  ∧ db_of (updateSlackConnector sample_world 1 (Some "conn-other") None
             sample_db) = sample_db.
Proof.
  apply (updateSlackConnector_keeps_team sample_world sample_db 1
           (Some "conn-other") None)
    with (nango_id := "nango-slack")
         (c := Connector.mk 1 "slack" "conn-1" "key" "w1" "slack-ds"
                 read_write)
         (cfg := SlackConfiguration.mk 1 "T1" 1 false)
         (newConnectionId := "conn-other");
    try reflexivity.
  intros team Hteam. vm_compute in Hteam. by simplify_eq.
Defined.

(** ** Creating a connector *)

(** C6. When the credential validation fails, that is, [team.info] does not
    answer [ok] or its answer carries no team id, [createSlackConnector]
    returns an error, the store afterwards is the store before (no
    [Connector] row and no [SlackConfiguration] row was created), and the
    only effects are the two validation calls: no row is written and no sync
    workflow is launched. *)
Theorem createSlackConnector_validation_failure (w : World)
    (dataSourceConfig : DataSourceConfig) (connectionId : string) (db : DB)
    (nango_id : string) :
  truthy (NANGO_SLACK_CONNECTOR_ID w) = Some nango_id →
  let token := nango_getToken w nango_id connectionId in
  ti_ok (slack_team_info w token) = false
  ∨ truthy (ti_team_id (slack_team_info w token)) = None →
  ∃ e, createSlackConnector w dataSourceConfig connectionId db
       = (Returned (Err e), db,
          [NangoGetToken nango_id connectionId; SlackTeamInfo token]).
Proof.
  intros Henv token Hfail. unfold createSlackConnector.
  rewrite Henv. run. fold token.
  destruct (ti_ok (slack_team_info w token)) eqn:Hok; simpl; [|eauto].
  destruct Hfail as [?|Hid]; [done|]. rewrite Hid. simpl. eauto.
Qed.

Lemma createSlackConnector_validation_failure_witness :
  ∃ e, createSlackConnector sample_world
         (mkDataSourceConfig "key" "w3" "slack-ds") "revoked" sample_db
       = (Returned (Err e), sample_db,
          [NangoGetToken "nango-slack" "revoked";
           SlackTeamInfo "xoxb-revoked"]).
Proof.
  apply (createSlackConnector_validation_failure sample_world
           (mkDataSourceConfig "key" "w3" "slack-ds") "revoked" sample_db
           "nango-slack").
  - reflexivity.
  - left. reflexivity.
Defined.

(** ** Listing permissions *)

Lemma channel_where_matches (connectorId : ModelId)
    (filterPermission : option ConnectorPermission) (ch : SlackChannel.t) :
  filterPermission ≠ Some none →
  channel_where connectorId filterPermission ch
  ↔ SlackChannel.connectorId ch = connectorId
    ∧ capability_matches filterPermission (SlackChannel.permission ch).
Proof.
  intros Hnone.
  unfold channel_where, Op_or, capability_matches, permissionToFilter.
  destruct filterPermission as [[]|]; try done;
    rewrite ?elem_of_cons, ?elem_of_nil; intuition discriminate.
Qed.

(** C1. For a connector with its configuration, and no parent given,
    [retrieveSlackConnectorPermissions] returns [Ok] without changing the
    store, and the resources returned are, up to their order, exactly the
    connector's channels whose permission matches the filter: [read] or
    [read_write] for the filter [read], [write] or [read_write] for [write],
    [read_write] alone for [read_write], and every channel of the connector
    when no filter is given. *)
Theorem retrieveSlackConnectorPermissions_filter (db : DB)
    (connectorId : ModelId) (parentInternalId : option string)
    (filterPermission : option ConnectorPermission)
    (c : Connector.t) (cfg : SlackConfiguration.t) :
  truthy parentInternalId = None →
  filterPermission ≠ Some none →
  findOne (λ r, Connector.id r = connectorId) (connectors db) = Some c →
  findOne (λ r, SlackConfiguration.connectorId r = connectorId)
    (slack_configurations db) = Some cfg →
  ∃ resources,
    retrieveSlackConnectorPermissions connectorId parentInternalId
      filterPermission db = (Returned (Ok resources), db, [])
    ∧ resources
      ≡ₚ to_resource (SlackConfiguration.slackTeamId cfg)
         <$> filter
               (λ ch, SlackChannel.connectorId ch = connectorId
                      ∧ capability_matches filterPermission
                          (SlackChannel.permission ch))
               (slack_channels db).
Proof.
  intros Hparent Hnone Hc Hcfg.
  unfold retrieveSlackConnectorPermissions. rewrite Hparent. run.
  rewrite Hc, Hcfg. simpl. eexists. split; [reflexivity|].
  apply fmap_Permutation. rewrite merge_sort_Permutation. unfold findAll.
  erewrite list_filter_iff; [reflexivity|].
  intros ch. by apply channel_where_matches.
Qed.

Lemma retrieveSlackConnectorPermissions_filter_witness :
  ∃ resources,
    retrieveSlackConnectorPermissions 1 None (Some read) sample_db
    = (Returned (Ok resources), sample_db, [])
    ∧ resources
      ≡ₚ to_resource "T1"
         <$> filter
               (λ ch, SlackChannel.connectorId ch = 1
                      ∧ capability_matches (Some read)
                          (SlackChannel.permission ch))
               (slack_channels sample_db).
Proof.
  apply (retrieveSlackConnectorPermissions_filter sample_db 1 None
           (Some read)
           (Connector.mk 1 "slack" "conn-1" "key" "w1" "slack-ds" read_write)
           (SlackConfiguration.mk 1 "T1" 1 false));
    done.
Defined.

(** ** Traces *)

Lemma precedes_app (P Q : event → Prop) (before after : list event) :
  Forall (λ e, ¬ Q e) before → Forall (λ e, ¬ P e) after →
  precedes P Q (before ++ after).
Proof.
  intros Hbefore Hafter i j e1 e2 Hi Hj HP HQ.
  rewrite Forall_lookup in Hbefore. rewrite Forall_lookup in Hafter.
  destruct (decide (i < length before)%nat) as [Hlt|Hge].
  - destruct (decide (j < length before)%nat) as [Hlt'|Hge']; [|lia].
    rewrite lookup_app_l in Hj by done. by destruct (Hbefore j e2).
  - rewrite lookup_app_r in Hi by lia. by destruct (Hafter _ e1 Hi).
Qed.

Lemma count_events_app (P : event → Prop) `{∀ e, Decision (P e)}
    (tr1 tr2 : list event) :
  count_events P (tr1 ++ tr2) = (count_events P tr1 + count_events P tr2)%nat.
Proof. unfold count_events. by rewrite filter_app, length_app. Qed.

(** ** Cleaning up a connector *)

Lemma destroy_keeps_others {R} (P Q : R → Prop) `{∀ r, Decision (P r)}
    `{∀ r, Decision (Q r)} (rows : list R) :
  (∀ r, Q r → ¬ P r) → filter Q (destroy P rows) = filter Q rows.
Proof.
  intros HQP. unfold destroy. by apply list_filter_filter_l.
Qed.

Lemma destroy_removes {R} (P : R → Prop) `{∀ r, Decision (P r)}
    (rows : list R) (r : R) :
  r ∈ destroy P rows → ¬ P r.
Proof. unfold destroy. rewrite list_elem_of_filter. tauto. Qed.

(** The connector 1 is the only one of its team, and its clean-up does not
    issue one uninstall and one deletion of the connection in every world:
    when Slack refuses [apps.uninstall] the connection is not deleted, and
    when [SLACK_CLIENT_SECRET] is not set no revoke call is made at all. *)
Lemma cleanup_revoke_counterexample :
  length (filter (λ r, SlackConfiguration.slackTeamId r = "T1")
            (slack_configurations sample_db)) = 1%nat
  ∧ cleanupSlackConnector refusing_world 1 sample_db
    = (Returned
         (Err "Could not uninstall the Slack app from the user's workspace. Error: invalid_auth"),
       sample_db,
       [GetAccessToken "conn-1";
        SlackAppsUninstall "xoxb-conn-1" "client-id" "client-secret"])
  ∧ ¬ revokes_once refusing_world 1 sample_db
  ∧ cleanupSlackConnector unconfigured_world 1 sample_db
    = (Returned (Err "SLACK_CLIENT_SECRET is not defined"), sample_db, [])
  ∧ ¬ revokes_once unconfigured_world 1 sample_db.
Proof.
  split; [reflexivity|]. split; [reflexivity|]. split.
  - intros [_ Hdelete]. vm_compute in Hdelete. discriminate Hdelete.
  - split; [reflexivity|].
    intros [Huninstall _]. vm_compute in Huninstall. discriminate Huninstall.
Qed.

(** C3 (amended). Let the connector have its configuration.  When that
    configuration is the only one with its [slackTeamId],
    [cleanupSlackConnector] issues at most one external revoke: never more
    than one [apps.uninstall] call, and no deletion of the connection without
    it.  With the three environment variables set it calls [apps.uninstall]
    exactly once and deletes the connection exactly once when Slack accepts
    the uninstall, and not at all when Slack refuses it; with one of the
    variables not set it makes no revoke call.  When some other configuration
    has the same [slackTeamId], whatever the environment, it issues no
    [apps.uninstall] and no deletion of the connection, returns [Ok], and
    leaves the rows of every other connector as they were. *)
Theorem cleanupSlackConnector_revokes_once (w : World) (db : DB)
    (connectorId : ModelId) (c : Connector.t) (cfg : SlackConfiguration.t) :
  findOne (λ r, Connector.id r = connectorId) (connectors db) = Some c →
  findOne (λ r, SlackConfiguration.connectorId r = connectorId)
    (slack_configurations db) = Some cfg →
  let same_team :=
    filter (λ r, SlackConfiguration.slackTeamId r
                 = SlackConfiguration.slackTeamId cfg)
           (slack_configurations db) in
  let run := cleanupSlackConnector w connectorId db in
  (length same_team = 1%nat →
   ((count_events is_uninstall (trace_of run) ≤ 1)%nat
    ∧ (count_events is_connection_delete (trace_of run)
       ≤ count_events is_uninstall (trace_of run))%nat)
   ∧ (∀ nango_id client_id client_secret,
        truthy (NANGO_SLACK_CONNECTOR_ID w) = Some nango_id →
        truthy (SLACK_CLIENT_ID w) = Some client_id →
        truthy (SLACK_CLIENT_SECRET w) = Some client_secret →
        count_events is_uninstall (trace_of run) = 1%nat
        ∧ count_events is_connection_delete (trace_of run)
          = (if un_ok (slack_apps_uninstall w
                         (getAccessToken w (Connector.connectionId c))
                         client_id client_secret)
             then 1 else 0)%nat)
   ∧ (truthy (NANGO_SLACK_CONNECTOR_ID w) = None
      ∨ truthy (SLACK_CLIENT_ID w) = None
      ∨ truthy (SLACK_CLIENT_SECRET w) = None →
      count_events is_revoke (trace_of run) = 0%nat))
  ∧ ((2 ≤ length same_team)%nat →
     count_events is_revoke (trace_of run) = 0%nat
     ∧ result_of run = Returned (Ok tt)
     ∧ connectors (db_of run) = connectors db
     ∧ slack_channels (db_of run) = slack_channels db
     ∧ ∀ sibling, sibling ≠ connectorId →
         filter (λ r, SlackConfiguration.connectorId r = sibling)
           (slack_configurations (db_of run))
         = filter (λ r, SlackConfiguration.connectorId r = sibling)
             (slack_configurations db)
         ∧ filter (λ r, SlackMessages.connectorId r = sibling)
             (slack_messages (db_of run))
           = filter (λ r, SlackMessages.connectorId r = sibling)
               (slack_messages db)).
Proof.
  intros Hc Hcfg same_team run. subst same_team run.
  unfold cleanupSlackConnector. run. rewrite Hc, Hcfg. simpl.
  unfold findAll. split.
  - intros Hone. rewrite bool_decide_eq_true_2 by done.
    destruct (truthy (NANGO_SLACK_CONNECTOR_ID w)) as [nango_id|];
      [|by repeat split; cbn; auto].
    destruct (truthy (SLACK_CLIENT_ID w)) as [client_id|];
      [|by repeat split; cbn; auto].
    destruct (truthy (SLACK_CLIENT_SECRET w)) as [client_secret|];
      [|by repeat split; cbn; auto].
    simpl. split; [|split].
    + destruct (un_ok _); simpl;
        [|by split; unfold count_events; simpl; lia].
      destruct (nangoDeleteConnection w _ _); simpl;
        split; unfold count_events; simpl; lia.
    + intros ? ? ? [= <-] [= <-] [= <-].
      destruct (un_ok _); simpl; [|by split].
      destruct (nangoDeleteConnection w _ _); simpl; by split.
    + intros [?|[?|?]]; done.
  - intros Hshared. rewrite bool_decide_eq_false_2 by lia. simpl.
    do 4 (split; [done|]). intros sibling Hsibling.
    split; apply destroy_keeps_others; intros r; simpl; congruence.
Qed.

Lemma cleanupSlackConnector_revokes_once_witness :
  (count_events is_uninstall
     (trace_of (cleanupSlackConnector sample_world 1 sample_db)) = 1%nat
   ∧ count_events is_connection_delete
       (trace_of (cleanupSlackConnector sample_world 1 sample_db)) = 1%nat)
  ∧ count_events is_revoke
      (trace_of (cleanupSlackConnector unconfigured_world 1 shared_db))
    = 0%nat
  ∧ filter (λ r, SlackMessages.connectorId r = 2)
      (slack_messages
         (db_of (cleanupSlackConnector unconfigured_world 1 shared_db)))
    = [SlackMessages.mk 2 2 "CA" "1.0" "doc2"].
Proof.
  pose proof (cleanupSlackConnector_revokes_once sample_world sample_db 1
                (Connector.mk 1 "slack" "conn-1" "key" "w1" "slack-ds"
                   read_write)
                (SlackConfiguration.mk 1 "T1" 1 false)
                eq_refl eq_refl) as [Hsole _].
  pose proof (cleanupSlackConnector_revokes_once unconfigured_world shared_db
                1
                (Connector.mk 1 "slack" "conn-1" "key" "w1" "slack-ds"
                   read_write)
                (SlackConfiguration.mk 1 "T1" 1 false)
                eq_refl eq_refl) as [_ Hshared].
  specialize (Hsole eq_refl). destruct Hsole as (_ & Hset & _).
  specialize (Hset "nango-slack" "client-id" "client-secret"
                eq_refl eq_refl eq_refl).
  assert (2 ≤ length
            (filter (λ r, SlackConfiguration.slackTeamId r = "T1")
               (slack_configurations shared_db)))%nat as Htwo
    by (vm_compute; lia).
  specialize (Hshared Htwo).
  destruct Hshared as (Hrevoke & _ & _ & _ & Hsibling).
  split; [exact Hset | split].
  - exact Hrevoke.
  - destruct (Hsibling 2) as [_ Hmessages]; [lia|].
    rewrite Hmessages. reflexivity.
Defined.

Lemma precedes_split (P Q : event → Prop) (k : nat) (tr : list event) :
  Forall (λ e, ¬ Q e) (take k tr) → Forall (λ e, ¬ P e) (drop k tr) →
  precedes P Q tr.
Proof.
  intros Hbefore Hafter. rewrite <- (take_drop k tr).
  by apply precedes_app.
Qed.

(** Discharges [precedes P Q tr] for a trace spelled out event by event that
    has no [Q] among its first [k] events and no [P] after them. *)
Ltac precedes_at k :=
  apply (precedes_split _ _ k); simpl;
  repeat (apply Forall_cons; split); try apply Forall_nil;
  unfold is_revoke; simpl; tauto.

(** On the sample store the clean-up of connector 1 succeeds, and its trace
    shows the uninstall and the deletion of the connection before the two
    deletions in the store. *)
Lemma cleanup_order_counterexample :
  result_of (cleanupSlackConnector sample_world 1 sample_db)
  = Returned (Ok tt)
  ∧ trace_of (cleanupSlackConnector sample_world 1 sample_db)
    = [GetAccessToken "conn-1";
       SlackAppsUninstall "xoxb-conn-1" "client-id" "client-secret";
       NangoDeleteConnection "conn-1" "nango-slack";
       Log LInfo [("slackTeamId", "T1")] "Deactivated the Slack app";
       DbDestroy "slack_messages" 1;
       DbDestroy "slack_configurations" 1]
  ∧ ¬ deletes_then_revokes sample_world 1 sample_db.
Proof.
  split; [reflexivity|]. split; [reflexivity|].
  intros (_ & _ & Horder).
  specialize (Horder 4%nat 1%nat (DbDestroy "slack_messages" 1)
                (SlackAppsUninstall "xoxb-conn-1" "client-id"
                   "client-secret")
                eq_refl eq_refl I (or_introl I)).
  lia.
Qed.

(** C4 (amended). [cleanupSlackConnector] works on the store of the
    transaction it is handed and calls the external revoke first: every
    revoke call comes before every deletion in the store.  When it returns
    [Ok], no [SlackConfiguration] row and no [SlackMessages] row of the
    connector is left.  When it does not return [Ok], in particular when
    the external revoke failed, the store is as it was before and nothing
    was written to it. *)
Theorem cleanupSlackConnector_revoke_before_delete (w : World)
    (connectorId : ModelId) (db : DB) :
  let run := cleanupSlackConnector w connectorId db in
  precedes is_revoke is_destroy (trace_of run)
  ∧ (result_of run = Returned (Ok tt) →
     (∀ cfg, cfg ∈ slack_configurations (db_of run)
             → SlackConfiguration.connectorId cfg ≠ connectorId)
     ∧ (∀ m, m ∈ slack_messages (db_of run)
             → SlackMessages.connectorId m ≠ connectorId))
  ∧ (result_of run ≠ Returned (Ok tt) →
     db_of run = db ∧ count_events is_store_write (trace_of run) = 0%nat).
Proof.
  intros run. subst run. unfold cleanupSlackConnector. run.
  destruct (findOne _ (connectors db)) as [c|]; simpl;
    [|by split; [precedes_at 0%nat|]].
  destruct (findOne _ (slack_configurations db)) as [cfg|]; simpl;
    [|by split; [precedes_at 0%nat|]].
  assert (∀ rows : DB,
            (∀ cfg', cfg' ∈ slack_configurations
                       (with_slack_configurations
                          (destroy (λ r, SlackConfiguration.connectorId r
                                         = connectorId))
                          (with_slack_messages
                             (destroy (λ r, SlackMessages.connectorId r
                                            = connectorId)) rows))
                     → SlackConfiguration.connectorId cfg' ≠ connectorId)
            ∧ (∀ m, m ∈ slack_messages
                      (with_slack_configurations
                         (destroy (λ r, SlackConfiguration.connectorId r
                                        = connectorId))
                         (with_slack_messages
                            (destroy (λ r, SlackMessages.connectorId r
                                           = connectorId)) rows))
                    → SlackMessages.connectorId m ≠ connectorId))
    as Hgone.
  { intros rows. simpl. split; intros r Hr;
      by apply destroy_removes in Hr. }
  case_bool_decide; simpl.
  - destruct (truthy (NANGO_SLACK_CONNECTOR_ID w)); simpl;
      [|by split; [precedes_at 0%nat|]].
    destruct (truthy (SLACK_CLIENT_ID w)); simpl;
      [|by split; [precedes_at 0%nat|]].
    destruct (truthy (SLACK_CLIENT_SECRET w)); simpl;
      [|by split; [precedes_at 0%nat|]].
    destruct (un_ok _); simpl; [|by split; [precedes_at 2%nat|]].
    destruct (nangoDeleteConnection w _ _); simpl;
      [|by split; [precedes_at 3%nat|]].
    split; [precedes_at 4%nat|]. split; [intros _; apply Hgone | done].
  - split; [precedes_at 1%nat|]. split; [intros _; apply Hgone | done].
Qed.

Lemma cleanupSlackConnector_revoke_before_delete_witness :
  (∀ cfg, cfg ∈ slack_configurations
            (db_of (cleanupSlackConnector sample_world 1 sample_db))
          → SlackConfiguration.connectorId cfg ≠ 1)
  ∧ db_of (cleanupSlackConnector sample_world 7 sample_db) = sample_db.
Proof.
  pose proof (cleanupSlackConnector_revoke_before_delete sample_world 1
                sample_db) as (_ & Hok & _).
  pose proof (cleanupSlackConnector_revoke_before_delete sample_world 7
                sample_db) as (_ & _ & Herr).
  split.
  - apply Hok. reflexivity.
  - apply Herr. vm_compute. discriminate.
Defined.

(** ** Setting permissions: what one call does *)

Lemma gains_read_changes (old new : ConnectorPermission) :
  gains_read old new = true → old ≠ new.
Proof. by destruct old, new. Qed.

Lemma loses_read_changes (old new : ConnectorPermission) :
  loses_read old new = true → old ≠ new.
Proof. by destruct old, new. Qed.

Section task.
Context (w : World) (connectorId : ModelId).

(** A task of the queue: the channel instance and the permission asked. *)
Local Abbreviation task :=
  (SlackChannel.t * ConnectorPermission)%type (only parsing).

Lemma permission_task_run (t : task) (flag : bool) (db : DB) :
  permission_task w connectorId t.1 t.2 flag db
  = (match task_rejection w connectorId t with
     | Some e => Thrown e
     | None => Returned (flag || task_loses_read t)
     end, task_db t db, task_trace connectorId t).
Proof.
  unfold permission_task, task_rejection, task_loses_read, task_db,
    task_trace, gains_read, loses_read.
  case_bool_decide as Hsame.
  - rewrite Hsame. run.
    destruct (includes_read t.2); simpl; by rewrite orb_false_r.
  - run.
    destruct (includes_read (SlackChannel.permission t.1)),
      (includes_read t.2); simpl; rewrite ?orb_false_r, ?orb_true_r;
      try done.
    by destruct (launchSlackBotJoinedWorkflow w _ _); simpl;
      rewrite ?orb_false_r.
Qed.

Lemma enqueue_run (channels : gmap string SlackChannel.t)
    (entries : list (string * ConnectorPermission)) (db : DB) :
  enqueue w connectorId channels entries db
  = (Returned ((λ q, queued_task w connectorId q.1 q.2)
                 <$> queued channels entries),
     db, missing_logs connectorId channels entries).
Proof.
  induction entries as [|[id p] entries IH]; [done|].
  unfold queued, missing_logs. csimpl.
  destruct (get_member channels id) as [m|]; run; rewrite IH, ?app_nil_r; done.
Qed.

Lemma promise_all_run (queue : list (member * ConnectorPermission))
    (flag : bool) (db : DB) :
  promise_all ((λ q, queued_task w connectorId q.1 q.2) <$> queue) flag db
  = (Returned
       (match rejection w connectorId queue with
        | Some e => Err e
        | None =>
            Ok (flag
                || existsb task_loses_read (executed w connectorId queue))
        end),
     foldl (λ db t, task_db t db) db (executed w connectorId queue),
     executed w connectorId queue ≫= task_trace connectorId).
Proof.
  revert flag db.
  induction queue as [|[[ch|] p] queue IH]; intros flag db.
  - simpl. run. by rewrite orb_false_r.
  - rewrite fmap_cons. simpl. run.
    rewrite (permission_task_run (ch, p)).
    destruct (task_rejection w connectorId (ch, p)) as [e|] eqn:Hrej; simpl.
    + by rewrite !app_nil_r.
    + rewrite IH. simpl.
      destruct (rejection w connectorId queue); [done|].
      by rewrite orb_assoc.
  - rewrite fmap_cons. simpl. run. done.
Qed.

Lemma setSlackConnectorPermissions_run
    (permissions : list (string * ConnectorPermission)) (db : DB)
    (c : Connector.t) (cfg : SlackConfiguration.t) :
  findOne (λ r, Connector.id r = connectorId) (connectors db) = Some c →
  findOne (λ r, SlackConfiguration.connectorId r = connectorId)
    (slack_configurations db) = Some cfg →
  let queue :=
    queued (batch_channels connectorId permissions db) permissions in
  setSlackConnectorPermissions w connectorId permissions db
  = (Returned (batch_result w connectorId queue),
     foldl (λ db t, task_db t db) db (executed w connectorId queue),
     missing_logs connectorId (batch_channels connectorId permissions db)
       permissions
       ++ (executed w connectorId queue ≫= task_trace connectorId)
       ++ collect_trace w connectorId queue).
Proof.
  intros Hc Hcfg queue. unfold setSlackConnectorPermissions.
  cbv [mbind M_bind query]. rewrite Hc, Hcfg. simpl.
  rewrite enqueue_run. fold (batch_channels connectorId permissions db).
  fold queue.
  rewrite promise_all_run. simpl.
  unfold batch_result, collect_trace.
  destruct (rejection w connectorId queue); simpl.
  - by rewrite !app_nil_r.
  - destruct (existsb task_loses_read (executed w connectorId queue)); simpl.
    + run. destruct (launchSlackGarbageCollectWorkflow w _); simpl;
        by rewrite ?app_nil_r.
    + run. by rewrite !app_nil_r.
Qed.

Lemma setSlackConnectorPermissions_not_found
    (permissions : list (string * ConnectorPermission)) (db : DB) :
  findOne (λ r, Connector.id r = connectorId) (connectors db) = None
  ∨ findOne (λ r, SlackConfiguration.connectorId r = connectorId)
      (slack_configurations db) = None →
  ∃ e, setSlackConnectorPermissions w connectorId permissions db
       = (Returned (Err e), db, []).
Proof.
  intros Hnone. unfold setSlackConnectorPermissions. cbv [mbind M_bind query].
  destruct (findOne _ (connectors db)); simpl; [|by eauto].
  destruct Hnone as [?|Hnone]; [done|]. rewrite Hnone. simpl. eauto.
Qed.

End task.

(** ** The row a channel id stands for *)

Lemma filter_ext_in {A} (P Q : A → Prop) `{∀ x, Decision (P x)}
    `{∀ x, Decision (Q x)} (l : list A) :
  (∀ x, x ∈ l → P x ↔ Q x) → filter P l = filter Q l.
Proof.
  induction l as [|a l IH]; intros Hiff; [done|].
  rewrite !filter_cons.
  assert (filter P l = filter Q l) as ->
    by (apply IH; intros x Hx; apply Hiff; by right).
  destruct (decide (P a)) as [HP|HP], (decide (Q a)) as [HQ|HQ]; try done.
  - exfalso. apply HQ, (Hiff a); [left | done].
  - exfalso. apply HP, (Hiff a); [left | done].
Qed.

Lemma index_channels_lookup (rows : list SlackChannel.t) (id : string) :
  index_channels rows !! id
  = last (filter (λ r, SlackChannel.slackChannelId r = id) rows).
Proof.
  unfold index_channels. induction rows as [|c rows IH] using rev_ind.
  - done.
  - rewrite foldl_app, filter_app. simpl. rewrite filter_cons, filter_nil.
    destruct (decide (SlackChannel.slackChannelId c = id)) as [<-|Hne].
    + by rewrite lookup_insert_eq, last_snoc.
    + by rewrite lookup_insert_ne, app_nil_r.
Qed.

Lemma batch_channels_lookup (connectorId : ModelId)
    (permissions : list (string * ConnectorPermission)) (db : DB)
    (id : string) :
  id ∈ permissions.*1 →
  batch_channels connectorId permissions db !! id
  = channel_of db connectorId id.
Proof.
  intros Hid. unfold batch_channels, channel_of, findAll.
  rewrite index_channels_lookup, list_filter_filter. f_equal.
  apply list_filter_iff. intros r. split; [tauto|].
  intros [? Heq]. rewrite Heq. tauto.
Qed.

Lemma channel_of_Some (db : DB) (connectorId : ModelId) (id : string)
    (ch : SlackChannel.t) :
  channel_of db connectorId id = Some ch →
  ch ∈ slack_channels db
  ∧ SlackChannel.connectorId ch = connectorId
  ∧ SlackChannel.slackChannelId ch = id.
Proof.
  unfold channel_of. intros Hlast. apply last_Some_elem_of in Hlast.
  apply list_elem_of_filter in Hlast. tauto.
Qed.

Lemma channel_of_None (db : DB) (connectorId : ModelId) (id : string) :
  (∀ ch, ch ∈ slack_channels db → SlackChannel.connectorId ch = connectorId
         → SlackChannel.slackChannelId ch ≠ id) →
  channel_of db connectorId id = None.
Proof.
  intros Hno. destruct (channel_of db connectorId id) as [ch|] eqn:Hch;
    [|done].
  apply channel_of_Some in Hch as (Hin & Hc & Hid). by destruct (Hno ch).
Qed.

Lemma omap_ext_in {A B} (f g : A → option B) (l : list A) :
  (∀ x, x ∈ l → f x = g x) → omap f l = omap g l.
Proof.
  induction l as [|a l IH]; intros Hfg; [done|].
  csimpl. rewrite (Hfg a) by left. rewrite IH; [done|].
  intros x Hx. apply Hfg. by right.
Qed.

(** [channels[id]] for an id of the batch, read off the store. *)
Lemma get_member_member_of (connectorId : ModelId)
    (permissions : list (string * ConnectorPermission)) (db : DB)
    (id : string) :
  id ∈ permissions.*1 →
  get_member (batch_channels connectorId permissions db) id
  = member_of db connectorId id.
Proof.
  intros Hid. unfold get_member, member_of.
  by rewrite batch_channels_lookup.
Qed.

Lemma queued_member_of (connectorId : ModelId)
    (permissions : list (string * ConnectorPermission)) (db : DB) :
  queued (batch_channels connectorId permissions db) permissions
  = batch_queue db connectorId permissions.
Proof.
  unfold queued, batch_queue. apply omap_ext_in. intros e He.
  rewrite get_member_member_of; [done|].
  apply list_elem_of_fmap. by exists e.
Qed.

Lemma missing_logs_member_of (connectorId : ModelId)
    (permissions : list (string * ConnectorPermission)) (db : DB) :
  missing_logs connectorId (batch_channels connectorId permissions db)
    permissions
  = batch_logs db connectorId permissions.
Proof.
  unfold missing_logs, batch_logs. apply omap_ext_in. intros e He.
  rewrite get_member_member_of; [done|].
  apply list_elem_of_fmap. by exists e.
Qed.

(** What a call does once the connector and its configuration are found. *)
Lemma setSlackConnectorPermissions_steps (w : World) (connectorId : ModelId)
    (permissions : list (string * ConnectorPermission)) (db : DB)
    (c : Connector.t) (cfg : SlackConfiguration.t) :
  findOne (λ r, Connector.id r = connectorId) (connectors db) = Some c →
  findOne (λ r, SlackConfiguration.connectorId r = connectorId)
    (slack_configurations db) = Some cfg →
  let queue := batch_queue db connectorId permissions in
  setSlackConnectorPermissions w connectorId permissions db
  = (Returned (batch_result w connectorId queue),
     foldl (λ db t, task_db t db) db (executed w connectorId queue),
     batch_logs db connectorId permissions
       ++ (executed w connectorId queue ≫= task_trace connectorId)
       ++ collect_trace w connectorId queue).
Proof.
  intros Hc Hcfg queue. subst queue.
  rewrite (setSlackConnectorPermissions_run w connectorId permissions db
             c cfg Hc Hcfg).
  by rewrite queued_member_of, missing_logs_member_of.
Qed.

(** ** The tasks that run before a call answers *)

Section queue.
Context (w : World) (connectorId : ModelId) (db : DB).

(** The tasks that run are the first tasks on rows of the batch. *)
Lemma executed_prefix (permissions : list (string * ConnectorPermission)) :
  executed w connectorId (batch_queue db connectorId permissions)
  `prefix_of` batch_tasks db connectorId permissions.
Proof.
  unfold batch_queue, batch_tasks, member_of.
  induction permissions as [|[id p] permissions IH]; [done|].
  csimpl. destruct (channel_of db connectorId id) as [ch|]; csimpl.
  - destruct (task_rejection w connectorId (ch, p)).
    + apply prefix_cons, prefix_nil.
    + by apply prefix_cons.
  - case_bool_decide; csimpl; [apply prefix_nil | exact IH].
Qed.

Lemma executed_elem (permissions : list (string * ConnectorPermission))
    (t : SlackChannel.t * ConnectorPermission) :
  t ∈ executed w connectorId (batch_queue db connectorId permissions) →
  t ∈ batch_tasks db connectorId permissions.
Proof.
  intros Hin. destruct (executed_prefix permissions) as [rest ->].
  apply elem_of_app. by left.
Qed.

(** Without a rejection every task on a row of the batch runs. *)
Lemma executed_all (permissions : list (string * ConnectorPermission)) :
  rejection w connectorId (batch_queue db connectorId permissions) = None →
  executed w connectorId (batch_queue db connectorId permissions)
  = batch_tasks db connectorId permissions.
Proof.
  unfold batch_queue, batch_tasks, member_of.
  induction permissions as [|[id p] permissions IH]; [done|].
  csimpl. destruct (channel_of db connectorId id) as [ch|]; csimpl.
  - destruct (task_rejection w connectorId (ch, p)); [done|].
    intros Hnone. by rewrite IH.
  - case_bool_decide; csimpl; [done | exact IH].
Qed.

(** A call without a rejection: no task on a row is rejected and no id of
    the batch without a row names a member of [Object.prototype]. *)
Lemma rejection_None (permissions : list (string * ConnectorPermission)) :
  rejection w connectorId (batch_queue db connectorId permissions) = None
  ↔ (∀ t, t ∈ batch_tasks db connectorId permissions →
          task_rejection w connectorId t = None)
    ∧ (∀ id, id ∈ permissions.*1 → channel_of db connectorId id = None →
             id ∉ Object_prototype_names).
Proof.
  unfold batch_queue, batch_tasks, member_of.
  induction permissions as [|[id p] permissions IH].
  - split; [|done]. intros _. split; [by intros t ?%not_elem_of_nil|].
    by intros id ?%not_elem_of_nil.
  - csimpl. destruct (channel_of db connectorId id) as [ch|] eqn:Hch; csimpl.
    + destruct (task_rejection w connectorId (ch, p)) eqn:Hrej.
      * split; [done|]. intros [Hnone _].
        rewrite Hnone in Hrej by left. done.
      * rewrite IH. split.
        -- intros [Htasks Hids]. split.
           ++ intros t [->|Ht]%elem_of_cons; auto.
           ++ intros id' [->|Hid']%elem_of_cons; [congruence | auto].
        -- intros [Htasks Hids]. split.
           ++ intros t Ht. apply Htasks. by right.
           ++ intros id' Hid'. apply Hids. by right.
    + case_bool_decide as Hname; csimpl.
      * split; [done|]. intros [_ Hids].
        destruct (Hids id); [left | done..].
      * rewrite IH. split.
        -- intros [Htasks Hids]. split; [done|].
           intros id' [->|Hid']%elem_of_cons; auto.
        -- intros [Htasks Hids]. split; [done|].
           intros id' Hid'. apply Hids. by right.
Qed.

End queue.

(** ** Unknown channel ids *)


(** X19. Let the connector and its configuration exist, let no id of the
    batch be the name of a member of [Object.prototype], and let [id] be an
    id of the batch for which the connector has no channel row.  The call
    writes the log line "Could not find channel in DB" for [id] and goes on
    with the other entries: its result, the store it leaves, and all its
    other events, in their order, are those of the call on the batch without
    that entry. *)
Theorem setSlackConnectorPermissions_skips_missing (w : World) (db : DB)
    (connectorId : ModelId) (before after : list (string * ConnectorPermission))
    (id : string) (p : ConnectorPermission)
    (c : Connector.t) (cfg : SlackConfiguration.t) :
  findOne (λ r, Connector.id r = connectorId) (connectors db) = Some c →
  findOne (λ r, SlackConfiguration.connectorId r = connectorId)
    (slack_configurations db) = Some cfg →
  plain_ids (before ++ (id, p) :: after) →
  (∀ ch, ch ∈ slack_channels db → SlackChannel.connectorId ch = connectorId
         → SlackChannel.slackChannelId ch ≠ id) →
  let with_id :=
    setSlackConnectorPermissions w connectorId (before ++ (id, p) :: after)
      db in
  let without :=
    setSlackConnectorPermissions w connectorId (before ++ after) db in
  missing_log connectorId id ∈ trace_of with_id
  ∧ result_of with_id = result_of without
  ∧ db_of with_id = db_of without
  ∧ filter (λ e, e ≠ missing_log connectorId id) (trace_of with_id)
    = filter (λ e, e ≠ missing_log connectorId id) (trace_of without).
Proof.
  intros Hc Hcfg Hplain Hno with_id without. subst with_id without.
  rewrite !(setSlackConnectorPermissions_steps w connectorId _ db c cfg Hc
              Hcfg).
  assert (member_of db connectorId id = None) as Hnone.
  { unfold member_of. rewrite (channel_of_None db connectorId id Hno).
    rewrite bool_decide_eq_false_2; [done|]. apply Hplain.
    rewrite fmap_app, fmap_cons, elem_of_app, elem_of_cons. auto. }
  assert (batch_queue db connectorId (before ++ (id, p) :: after)
          = batch_queue db connectorId (before ++ after)) as Hqueue.
  { unfold batch_queue. rewrite !omap_app. csimpl. by rewrite Hnone. }
  assert (batch_logs db connectorId (before ++ (id, p) :: after)
          = batch_logs db connectorId before
            ++ missing_log connectorId id
               :: batch_logs db connectorId after) as Hlogs.
  { unfold batch_logs. rewrite !omap_app. csimpl. by rewrite Hnone. }
  assert (batch_logs db connectorId (before ++ after)
          = batch_logs db connectorId before
            ++ batch_logs db connectorId after) as Hlogs'.
  { unfold batch_logs. by rewrite !omap_app. }
  unfold result_of, db_of, trace_of. simpl.
  rewrite Hqueue, Hlogs, Hlogs'. split; [|split; [done|split; [done|]]].
  - rewrite !elem_of_app, elem_of_cons. auto.
  - rewrite !filter_app, filter_cons.
    by rewrite decide_False by (intros Hne; by apply Hne).
Qed.

Lemma setSlackConnectorPermissions_skips_missing_witness :
  missing_log 1 "C404"
    ∈ trace_of (setSlackConnectorPermissions sample_world 1
                  ([("CA", none)] ++ ("C404", read) :: [("CB", read_write)])
                  sample_db)
  ∧ result_of (setSlackConnectorPermissions sample_world 1
                 ([("CA", none)] ++ ("C404", read) :: [("CB", read_write)])
                 sample_db)
    = result_of (setSlackConnectorPermissions sample_world 1
                   ([("CA", none)] ++ [("CB", read_write)]) sample_db)
  ∧ db_of (setSlackConnectorPermissions sample_world 1
             ([("CA", none)] ++ ("C404", read) :: [("CB", read_write)])
             sample_db)
    = db_of (setSlackConnectorPermissions sample_world 1
               ([("CA", none)] ++ [("CB", read_write)]) sample_db)
  ∧ filter (λ e, e ≠ missing_log 1 "C404")
      (trace_of (setSlackConnectorPermissions sample_world 1
                   ([("CA", none)] ++ ("C404", read) :: [("CB", read_write)])
                   sample_db))
    = filter (λ e, e ≠ missing_log 1 "C404")
        (trace_of (setSlackConnectorPermissions sample_world 1
                     ([("CA", none)] ++ [("CB", read_write)]) sample_db)).
Proof.
  apply (setSlackConnectorPermissions_skips_missing sample_world sample_db 1
           [("CA", none)] [("CB", read_write)] "C404" read
           (Connector.mk 1 "slack" "conn-1" "key" "w1" "slack-ds" read_write)
           (SlackConfiguration.mk 1 "T1" 1 false));
    [reflexivity | reflexivity | |].
  - intros id Hid. apply list_elem_of_In in Hid. simpl in Hid.
    destruct Hid as [<-|[<-|[<-|[]]]]; compute_done.
  - intros ch Hch _. apply list_elem_of_In in Hch. simpl in Hch.
    destruct Hch as [<-|[<-|[<-|[<-|[<-|[]]]]]]; done.
Defined.

(** ** Permission transitions *)

Lemma count_events_0 (P : event → Prop) `{∀ e, Decision (P e)}
    (tr : list event) :
  (∀ e, e ∈ tr → ¬ P e) → count_events P tr = 0%nat.
Proof.
  intros Hno. unfold count_events.
  destruct (filter P tr) as [|e l] eqn:Hfilter; [done|].
  assert (e ∈ filter P tr) as Hin by (rewrite Hfilter; left).
  apply list_elem_of_filter in Hin as [HP Hin]. by destruct (Hno e).
Qed.

Section transitions.
Context (w : World) (connectorId : ModelId) (db : DB).

Lemma batch_tasks_elem
    (permissions : list (string * ConnectorPermission))
    (t : SlackChannel.t * ConnectorPermission) :
  t ∈ batch_tasks db connectorId permissions
  ↔ ∃ id, (id, t.2) ∈ permissions ∧ channel_of db connectorId id = Some t.1.
Proof.
  unfold batch_tasks. rewrite list_elem_of_omap. split.
  - intros ([id p] & Hin & Hsome). simpl in Hsome.
    destruct (channel_of db connectorId id) as [ch|] eqn:Hch; simplify_eq/=.
    eauto.
  - intros (id & Hin & Hch). exists (id, t.2). split; [done|]. simpl.
    rewrite Hch. by destruct t.
Qed.

Lemma batch_tasks_ids (permissions : list (string * ConnectorPermission)) :
  sublist ((λ t, SlackChannel.slackChannelId t.1)
             <$> batch_tasks db connectorId permissions)
          permissions.*1.
Proof.
  unfold batch_tasks. induction permissions as [|[id p] permissions IH];
    [done|].
  csimpl. destruct (channel_of db connectorId id) as [ch|] eqn:Hch; csimpl.
  - apply channel_of_Some in Hch as (_ & _ & ->). by apply sublist_skip.
  - by apply sublist_cons.
Qed.

Lemma batch_logs_elem (permissions : list (string * ConnectorPermission))
    (e : event) :
  e ∈ batch_logs db connectorId permissions →
  ∃ id, e = missing_log connectorId id.
Proof.
  unfold batch_logs. rewrite list_elem_of_omap.
  intros ([id p] & _ & Hsome). simpl in Hsome.
  destruct (member_of db connectorId id); simplify_eq. eauto.
Qed.

Lemma task_trace_elem (t : SlackChannel.t * ConnectorPermission) (e : event) :
  e ∈ task_trace connectorId t →
  e = DbUpdate "slack_channels" (SlackChannel.id t.1)
  ∨ (gains_read (SlackChannel.permission t.1) t.2 = true
     ∧ e = LaunchSlackBotJoinedWorkflow (pretty connectorId)
             (SlackChannel.slackChannelId t.1)).
Proof.
  unfold task_trace. case_bool_decide; [by intros ?%not_elem_of_nil|].
  destruct (gains_read _ _); rewrite !elem_of_cons, ?elem_of_nil.
  - intros [->|[->|[]]]; auto.
  - intros [->|[]]; auto.
Qed.

Lemma collect_trace_elem (queue : list (member * ConnectorPermission))
    (e : event) :
  e ∈ collect_trace w connectorId queue →
  e = LaunchSlackGarbageCollectWorkflow (pretty connectorId).
Proof.
  unfold collect_trace.
  destruct (rejection _ _ _); [by intros ?%not_elem_of_nil|].
  destruct (existsb _ _); [|by intros ?%not_elem_of_nil].
  by intros ?%list_elem_of_singleton.
Qed.

(** Neither the log lines nor the tasks launch the garbage collection. *)
Lemma before_collect_no_garbage_collect
    (permissions : list (string * ConnectorPermission))
    (tasks : list (SlackChannel.t * ConnectorPermission)) (e : event) :
  e ∈ batch_logs db connectorId permissions
        ++ (tasks ≫= task_trace connectorId) →
  ¬ is_garbage_collect e.
Proof.
  rewrite elem_of_app, list_elem_of_bind.
  intros [[id ->]%batch_logs_elem | (t & [->|[_ ->]]%task_trace_elem & _)];
    simpl; tauto.
Qed.

Lemma task_trace_count_other (id : string)
    (t : SlackChannel.t * ConnectorPermission) :
  SlackChannel.slackChannelId t.1 ≠ id →
  count_events (is_bot_join_for connectorId id) (task_trace connectorId t)
  = 0%nat.
Proof.
  intros Hne. apply count_events_0.
  intros e [->|[_ ->]]%task_trace_elem; unfold is_bot_join_for; congruence.
Qed.

Lemma task_trace_count_self (t : SlackChannel.t * ConnectorPermission) :
  gains_read (SlackChannel.permission t.1) t.2 = true →
  count_events
    (is_bot_join_for connectorId (SlackChannel.slackChannelId t.1))
    (task_trace connectorId t) = 1%nat.
Proof.
  intros Hgain. unfold task_trace.
  rewrite bool_decide_eq_false_2 by (by apply gains_read_changes).
  rewrite Hgain. unfold count_events, is_bot_join_for.
  rewrite filter_cons, decide_False by done.
  by rewrite filter_cons, decide_True by done.
Qed.

Lemma task_trace_count_le (id : string)
    (t : SlackChannel.t * ConnectorPermission) :
  (count_events (is_bot_join_for connectorId id) (task_trace connectorId t)
   ≤ 1)%nat.
Proof.
  unfold task_trace, count_events. case_bool_decide; [simpl; lia|].
  rewrite filter_cons, decide_False by done.
  destruct (gains_read _ _); [|simpl; lia].
  rewrite filter_cons. destruct (decide _); simpl; lia.
Qed.

(** Tasks on other channels launch no bot-join workflow for [id]. *)
Lemma tasks_count_bot_join_other
    (tasks : list (SlackChannel.t * ConnectorPermission)) (id : string) :
  id ∉ (λ t, SlackChannel.slackChannelId t.1) <$> tasks →
  count_events (is_bot_join_for connectorId id)
    (tasks ≫= task_trace connectorId) = 0%nat.
Proof.
  intros Hfresh. apply count_events_0.
  intros e (t & [->|[_ ->]]%task_trace_elem & Hin)%list_elem_of_bind;
    unfold is_bot_join_for; [done|].
  intros [= Heq]. apply Hfresh. rewrite <- Heq.
  apply list_elem_of_fmap. by exists t.
Qed.

(** A task that gains read access launches the bot-join workflow of its
    channel, and no other task of the batch launches it. *)
Lemma tasks_count_bot_join (tasks : list (SlackChannel.t * ConnectorPermission))
    (t : SlackChannel.t * ConnectorPermission) :
  NoDup ((λ t, SlackChannel.slackChannelId t.1) <$> tasks) →
  t ∈ tasks →
  gains_read (SlackChannel.permission t.1) t.2 = true →
  count_events
    (is_bot_join_for connectorId (SlackChannel.slackChannelId t.1))
    (tasks ≫= task_trace connectorId) = 1%nat.
Proof.
  intros Hnodup Hin Hgain.
  induction tasks as [|t' tasks IH]; [by apply not_elem_of_nil in Hin|].
  rewrite fmap_cons in Hnodup. apply NoDup_cons in Hnodup as [Hfresh Hnodup].
  rewrite bind_cons, count_events_app.
  apply elem_of_cons in Hin as [<-|Hin].
  - rewrite task_trace_count_self by done.
    by rewrite tasks_count_bot_join_other.
  - rewrite task_trace_count_other, IH; [done..|].
    intros Heq. apply Hfresh. rewrite Heq.
    apply list_elem_of_fmap. by exists t.
Qed.

(** No channel gets more than one bot-join launch. *)
Lemma tasks_count_bot_join_le
    (tasks : list (SlackChannel.t * ConnectorPermission)) (id : string) :
  NoDup ((λ t, SlackChannel.slackChannelId t.1) <$> tasks) →
  (count_events (is_bot_join_for connectorId id)
     (tasks ≫= task_trace connectorId) ≤ 1)%nat.
Proof.
  intros Hnodup.
  induction tasks as [|t tasks IH]; [unfold count_events; simpl; lia|].
  rewrite fmap_cons in Hnodup. apply NoDup_cons in Hnodup as [Hfresh Hnodup].
  rewrite bind_cons, count_events_app.
  destruct (decide (SlackChannel.slackChannelId t.1 = id)) as [<-|Hne].
  - rewrite tasks_count_bot_join_other by done.
    pose proof (task_trace_count_le (SlackChannel.slackChannelId t.1) t).
    lia.
  - rewrite task_trace_count_other by done. by apply IH.
Qed.

(** The tasks that run are on pairwise distinct channels. *)
Lemma executed_ids (permissions : list (string * ConnectorPermission)) :
  NoDup permissions.*1 →
  NoDup ((λ t, SlackChannel.slackChannelId t.1)
           <$> executed w connectorId
                 (batch_queue db connectorId permissions)).
Proof.
  intros Hnodup.
  pose proof (sublist_NoDup _ _ Hnodup (batch_tasks_ids permissions))
    as Hids.
  destruct (executed_prefix w connectorId db permissions) as [rest Hrest].
  rewrite Hrest, fmap_app in Hids. by apply NoDup_app in Hids as [? _].
Qed.

(** When every bot-join launch asked for succeeds, no task on a row is
    rejected. *)
Lemma joins_succeed_rejection
    (permissions : list (string * ConnectorPermission)) :
  joins_succeed w db connectorId permissions
  ↔ ∀ t, t ∈ batch_tasks db connectorId permissions →
         task_rejection w connectorId t = None.
Proof.
  unfold joins_succeed. split.
  - intros Hok [ch p] (id & Hentry & Hch)%batch_tasks_elem. simpl in *.
    unfold task_rejection. simpl.
    destruct (gains_read _ _) eqn:Hgain; [|done].
    specialize (Hok id p ch Hentry Hch Hgain).
    apply channel_of_Some in Hch as (_ & _ & ->).
    by destruct (launchSlackBotJoinedWorkflow w _ id).
  - intros Hnone id p ch Hentry Hch Hgain.
    specialize (Hnone (ch, p)). unfold task_rejection in Hnone.
    simpl in Hnone. rewrite Hgain in Hnone.
    apply channel_of_Some in Hch as Hrow. destruct Hrow as (_ & _ & Hid).
    rewrite Hid in Hnone.
    destruct (launchSlackBotJoinedWorkflow w _ id); [done|].
    discriminate Hnone. apply batch_tasks_elem. eauto.
Qed.

(** No task is rejected when the ids are plain and the launches succeed. *)
Lemma plain_rejection_None
    (permissions : list (string * ConnectorPermission)) :
  plain_ids permissions →
  joins_succeed w db connectorId permissions →
  rejection w connectorId (batch_queue db connectorId permissions) = None.
Proof.
  intros Hplain Hjoins. apply rejection_None. split.
  - by apply joins_succeed_rejection.
  - intros id Hid _. by apply Hplain.
Qed.

End transitions.

(** Channel "CA" loses its read access in the same batch in which the
    bot-join launch for "CD" fails: the call returns that error right after
    the tasks and launches no garbage collection. *)
Lemma read_loss_without_collect_counterexample :
  result_of (setSlackConnectorPermissions sample_world 1
               [("CA", none); ("CD", read)] sample_db)
  = Returned (Err "join failed")
  ∧ trace_of (setSlackConnectorPermissions sample_world 1
                [("CA", none); ("CD", read)] sample_db)
    = [DbUpdate "slack_channels" 1; DbUpdate "slack_channels" 4;
       LaunchSlackBotJoinedWorkflow "1" "CD"]
  ∧ ¬ collects_on_read_loss sample_world 1 [("CA", none); ("CD", read)]
        sample_db.
Proof.
  split; [reflexivity|]. split; [reflexivity|].
  intros Hclaim.
  specialize (Hclaim "CA" none (SlackChannel.mk 1 1 "CA" "a" read 10)).
  discriminate Hclaim; [by left | reflexivity | reflexivity].
Qed.

(** C2 (amended). Let the connector and its configuration exist and the ids
    of the batch be pairwise distinct.  When the bot-join launch for a
    channel of the batch that gains read access fails, the call returns an
    error and launches no garbage collection.  In every case no channel gets
    more than one bot-join launch, and the garbage-collection workflow is
    launched at most once, after all the updates of channel rows and all the
    bot-join launches of the call.  When no task of the call is rejected,
    that is, when no id of the batch is the name of a member of
    [Object.prototype] and every bot-join launch asked for succeeds, exactly
    one bot-join workflow is launched for every channel of the batch that
    gains read access, and the garbage-collection workflow is launched
    exactly once if some channel of the batch loses read access. *)
Theorem setSlackConnectorPermissions_transitions (w : World) (db : DB)
    (connectorId : ModelId)
    (permissions : list (string * ConnectorPermission))
    (c : Connector.t) (cfg : SlackConfiguration.t) :
  findOne (λ r, Connector.id r = connectorId) (connectors db) = Some c →
  findOne (λ r, SlackConfiguration.connectorId r = connectorId)
    (slack_configurations db) = Some cfg →
  NoDup permissions.*1 →
  let run := setSlackConnectorPermissions w connectorId permissions db in
  (∀ id p ch,
     (id, p) ∈ permissions →
     channel_of db connectorId id = Some ch →
     gains_read (SlackChannel.permission ch) p = true →
     isErr (launchSlackBotJoinedWorkflow w (pretty connectorId) id) = true →
     (∃ e, result_of run = Returned (Err e))
     ∧ count_events is_garbage_collect (trace_of run) = 0%nat)
  ∧ (∀ id,
       (count_events (is_bot_join_for connectorId id) (trace_of run)
        ≤ 1)%nat)
  ∧ (count_events is_garbage_collect (trace_of run) ≤ 1)%nat
  ∧ precedes (λ e, is_channel_update e ∨ is_bot_join e) is_garbage_collect
      (trace_of run)
  ∧ (plain_ids permissions →
     joins_succeed w db connectorId permissions →
     (∀ id p ch,
        (id, p) ∈ permissions →
        channel_of db connectorId id = Some ch →
        gains_read (SlackChannel.permission ch) p = true →
        count_events (is_bot_join_for connectorId id) (trace_of run)
        = 1%nat)
     ∧ (∀ id p ch,
          (id, p) ∈ permissions →
          channel_of db connectorId id = Some ch →
          loses_read (SlackChannel.permission ch) p = true →
          count_events is_garbage_collect (trace_of run) = 1%nat)).
Proof.
  intros Hc Hcfg Hnodup run. subst run.
  rewrite (setSlackConnectorPermissions_steps w connectorId permissions db
             c cfg Hc Hcfg).
  unfold result_of, trace_of. simpl.
  set (queue := batch_queue db connectorId permissions).
  set (tasks := executed w connectorId queue).
  assert (∀ e, e ∈ batch_logs db connectorId permissions
                     ++ (tasks ≫= task_trace connectorId)
               → ¬ is_garbage_collect e) as Hbefore
    by apply before_collect_no_garbage_collect.
  assert (count_events is_garbage_collect
            (batch_logs db connectorId permissions
               ++ (tasks ≫= task_trace connectorId)
               ++ collect_trace w connectorId queue)
          = count_events is_garbage_collect
              (collect_trace w connectorId queue)) as Hcount.
  { rewrite app_assoc, count_events_app.
    by rewrite (count_events_0 _ _ Hbefore). }
  assert (∀ id,
            count_events (is_bot_join_for connectorId id)
              (batch_logs db connectorId permissions
                 ++ (tasks ≫= task_trace connectorId)
                 ++ collect_trace w connectorId queue)
            = count_events (is_bot_join_for connectorId id)
                (tasks ≫= task_trace connectorId)) as Hjoin.
  { intros id. rewrite !count_events_app.
    rewrite (count_events_0 _ (batch_logs _ _ _)).
    2:{ intros e [id' ->]%batch_logs_elem. unfold is_bot_join_for. done. }
    rewrite (count_events_0 _ (collect_trace _ _ _)).
    2:{ intros e ->%collect_trace_elem. unfold is_bot_join_for. done. }
    lia. }
  rewrite Hcount. split; [|split; [|split; [|split]]].
  - intros id p ch Hin Hch Hgain Herr.
    assert (is_Some (rejection w connectorId queue)) as [e He].
    { destruct (rejection w connectorId queue) eqn:Hrej; [eauto|].
      apply rejection_None in Hrej as [Hrej _].
      assert ((ch, p) ∈ batch_tasks db connectorId permissions) as Htask
        by (apply batch_tasks_elem; eauto).
      specialize (Hrej (ch, p) Htask).
      unfold task_rejection in Hrej. simpl in Hrej.
      pose proof (channel_of_Some _ _ _ _ Hch) as (_ & _ & Hid).
      rewrite Hgain, Hid in Hrej.
      by destruct (launchSlackBotJoinedWorkflow w _ id). }
    unfold batch_result, collect_trace. rewrite He. eauto.
  - intros id. rewrite Hjoin. apply tasks_count_bot_join_le.
    by apply executed_ids.
  - unfold collect_trace, count_events.
    destruct (rejection _ _ _); [simpl; lia|].
    destruct (existsb _ _); simpl; lia.
  - rewrite app_assoc. apply precedes_app.
    + apply Forall_forall. intros e He. by apply Hbefore.
    + apply Forall_forall. intros e ->%collect_trace_elem. simpl. tauto.
  - intros Hplain Hjoins.
    pose proof (plain_rejection_None w connectorId db permissions Hplain
                  Hjoins) as Hnone.
    pose proof (executed_all w connectorId db permissions Hnone) as Hall.
    fold queue in Hnone, Hall. fold tasks in Hall. split.
    + intros id p ch Hin Hch Hgain.
      assert ((ch, p) ∈ tasks) as Htask
        by (rewrite Hall; apply batch_tasks_elem; eauto).
      pose proof (channel_of_Some _ _ _ _ Hch) as (_ & _ & Hid).
      rewrite Hjoin, <- Hid.
      apply (tasks_count_bot_join connectorId tasks (ch, p));
        [by apply executed_ids | done | done].
    + intros id p ch Hin Hch Hloss.
      assert ((ch, p) ∈ tasks) as Htask
        by (rewrite Hall; apply batch_tasks_elem; eauto).
      unfold collect_trace. rewrite Hnone. fold tasks.
      assert (existsb task_loses_read tasks = true) as ->; [|reflexivity].
      apply existsb_exists. exists (ch, p).
      split; [by apply list_elem_of_In | exact Hloss].
Qed.

Lemma setSlackConnectorPermissions_transitions_witness :
  count_events (is_bot_join_for 1 "CB")
    (trace_of (setSlackConnectorPermissions sample_world 1
                 [("CA", none); ("CB", read_write); ("C404", read)]
                 sample_db)) = 1%nat
  ∧ count_events is_garbage_collect
      (trace_of (setSlackConnectorPermissions sample_world 1
                   [("CA", none); ("CB", read_write); ("C404", read)]
                   sample_db)) = 1%nat
  ∧ ((∃ e, result_of (setSlackConnectorPermissions sample_world 1
                        [("CA", none); ("CD", read)] sample_db)
           = Returned (Err e))
     ∧ count_events is_garbage_collect
         (trace_of (setSlackConnectorPermissions sample_world 1
                      [("CA", none); ("CD", read)] sample_db)) = 0%nat).
Proof.
  assert (NoDup [("CA", none); ("CB", read_write); ("C404", read)].*1)
    as Hnodup by (simpl; compute_done).
  assert (NoDup [("CA", none); ("CD", read)].*1)
    as Hnodup' by (simpl; compute_done).
  pose proof (setSlackConnectorPermissions_transitions sample_world sample_db
                1 [("CA", none); ("CB", read_write); ("C404", read)]
                (Connector.mk 1 "slack" "conn-1" "key" "w1" "slack-ds"
                   read_write)
                (SlackConfiguration.mk 1 "T1" 1 false)
                eq_refl eq_refl Hnodup) as (_ & _ & _ & _ & Hquiet).
  pose proof (setSlackConnectorPermissions_transitions sample_world sample_db
                1 [("CA", none); ("CD", read)]
                (Connector.mk 1 "slack" "conn-1" "key" "w1" "slack-ds"
                   read_write)
                (SlackConfiguration.mk 1 "T1" 1 false)
                eq_refl eq_refl Hnodup') as (Hfail & _).
  assert (plain_ids [("CA", none); ("CB", read_write); ("C404", read)])
    as Hplain.
  { intros id Hid. apply list_elem_of_In in Hid. simpl in Hid.
    destruct Hid as [<-|[<-|[<-|[]]]]; compute_done. }
  assert (joins_succeed sample_world sample_db 1
            [("CA", none); ("CB", read_write); ("C404", read)]) as Hjoins.
  { intros id' p' ch' Hin' Hch' Hgain. apply list_elem_of_In in Hin'.
    simpl in Hin'.
    destruct Hin' as [[= <- <-]|[[= <- <-]|[[= <- <-]|[]]]];
      vm_compute in Hch'; simplify_eq; done. }
  destruct (Hquiet Hplain Hjoins) as [Hjoin Hloss].
  split; [|split].
  - apply (Hjoin "CB" read_write (SlackChannel.mk 2 1 "CB" "b" write 20));
      [|reflexivity..].
    apply list_elem_of_In. simpl. auto.
  - apply (Hloss "CA" none (SlackChannel.mk 1 1 "CA" "a" read 10));
      [apply list_elem_of_In; simpl; auto | reflexivity | reflexivity].
  - apply (Hfail "CD" read (SlackChannel.mk 4 1 "CD" "d" none 5));
      [apply list_elem_of_In; simpl; auto | reflexivity..].
Defined.

(** ** Applying a batch twice *)

Lemma task_row_same_key (t : SlackChannel.t * ConnectorPermission)
    (r : SlackChannel.t) :
  SlackChannel.id (task_row t r) = SlackChannel.id r
  ∧ SlackChannel.connectorId (task_row t r) = SlackChannel.connectorId r
  ∧ SlackChannel.slackChannelId (task_row t r)
    = SlackChannel.slackChannelId r.
Proof. unfold task_row. by repeat case_bool_decide. Qed.

Lemma apply_tasks_same_key
    (tasks : list (SlackChannel.t * ConnectorPermission))
    (r : SlackChannel.t) :
  SlackChannel.id (apply_tasks tasks r) = SlackChannel.id r
  ∧ SlackChannel.connectorId (apply_tasks tasks r)
    = SlackChannel.connectorId r
  ∧ SlackChannel.slackChannelId (apply_tasks tasks r)
    = SlackChannel.slackChannelId r.
Proof.
  revert r. induction tasks as [|t tasks IH]; intros r; [done|].
  simpl. destruct (IH (task_row t r)) as (-> & -> & ->).
  apply task_row_same_key.
Qed.

Lemma task_db_tables (t : SlackChannel.t * ConnectorPermission) (db : DB) :
  task_db t db
  = mkDB (connectors db) (slack_configurations db)
         (task_row t <$> slack_channels db) (slack_messages db).
Proof.
  unfold task_db, task_row. case_bool_decide.
  - rewrite list_fmap_id. by destruct db.
  - done.
Qed.

Lemma tasks_db_tables (tasks : list (SlackChannel.t * ConnectorPermission))
    (db : DB) :
  foldl (λ db t, task_db t db) db tasks
  = mkDB (connectors db) (slack_configurations db)
         (apply_tasks tasks <$> slack_channels db) (slack_messages db).
Proof.
  revert db. induction tasks as [|t tasks IH]; intros db.
  - simpl. rewrite list_fmap_id. by destruct db.
  - simpl. rewrite IH, task_db_tables. simpl.
    by rewrite <- list_fmap_compose.
Qed.

Lemma apply_tasks_other (tasks : list (SlackChannel.t * ConnectorPermission))
    (r : SlackChannel.t) :
  (∀ t, t ∈ tasks → SlackChannel.id t.1 ≠ SlackChannel.id r) →
  apply_tasks tasks r = r.
Proof.
  induction tasks as [|t tasks IH]; intros Hother; [done|].
  simpl. assert (task_row t r = r) as ->.
  { unfold task_row. case_bool_decide; [done|].
    rewrite bool_decide_eq_false_2; [done|].
    intros Heq. by apply (Hother t); [left|]. }
  apply IH. intros t' Hin. apply Hother. by right.
Qed.

(** After the tasks, the row of a task carries the permission asked for. *)
Lemma apply_tasks_self (tasks : list (SlackChannel.t * ConnectorPermission))
    (ch : SlackChannel.t) (p : ConnectorPermission) :
  NoDup ((λ t, SlackChannel.id t.1) <$> tasks) →
  (ch, p) ∈ tasks →
  SlackChannel.permission (apply_tasks tasks ch) = p.
Proof.
  induction tasks as [|t tasks IH]; intros Hnodup Hin;
    [by apply not_elem_of_nil in Hin|].
  rewrite fmap_cons in Hnodup. apply NoDup_cons in Hnodup as [Hfresh Hnodup].
  simpl. apply elem_of_cons in Hin as [<-|Hin].
  - rewrite apply_tasks_other.
    + unfold task_row. simpl. case_bool_decide; [done|].
      by rewrite bool_decide_eq_true_2.
    + intros t Hin Heq. apply Hfresh.
      destruct (task_row_same_key (ch, p) ch) as (Hid & _).
      rewrite Hid in Heq. simpl. rewrite <- Heq.
      apply list_elem_of_fmap. by exists t.
  - assert (task_row t ch = ch) as ->; [|by apply IH].
    unfold task_row. case_bool_decide; [done|].
    rewrite bool_decide_eq_false_2; [done|].
    intros Heq. apply Hfresh. rewrite <- Heq.
    apply list_elem_of_fmap. by exists (ch, p).
Qed.

Lemma NoDup_fmap_unique {A B} (f : A → B) (l : list A) (x y : A) :
  NoDup (f <$> l) → x ∈ l → y ∈ l → f x = f y → x = y.
Proof.
  intros Hnodup [i Hi]%list_elem_of_lookup [j Hj]%list_elem_of_lookup Heq.
  assert (i = j) as ->; [|congruence].
  eapply NoDup_lookup; [exact Hnodup|..].
  - by rewrite list_lookup_fmap, Hi.
  - by rewrite list_lookup_fmap, Hj, Heq.
Qed.

Lemma NoDup_fmap_finer {A B C} (f : A → B) (g : A → C) (l : list A) :
  NoDup (g <$> l) →
  (∀ x y, x ∈ l → y ∈ l → f x = f y → g x = g y) →
  NoDup (f <$> l).
Proof.
  induction l as [|a l IH]; intros Hnodup Hfiner; [constructor|].
  rewrite fmap_cons in Hnodup. apply NoDup_cons in Hnodup as [Hfresh Hnodup].
  rewrite fmap_cons. apply NoDup_cons. split.
  - intros (y & Heq & Hy)%list_elem_of_fmap. apply Hfresh.
    rewrite (Hfiner a y); [|left|by right|done].
    apply list_elem_of_fmap. by exists y.
  - apply IH; [done|]. intros x y Hx Hy. apply Hfiner; by right.
Qed.

(** Distinct ids of a batch stand for rows with distinct primary keys. *)
Lemma batch_tasks_keys (db : DB) (connectorId : ModelId)
    (permissions : list (string * ConnectorPermission)) :
  NoDup (SlackChannel.id <$> slack_channels db) →
  NoDup permissions.*1 →
  NoDup ((λ t, SlackChannel.id t.1)
           <$> batch_tasks db connectorId permissions).
Proof.
  intros Hkeys Hids.
  apply (NoDup_fmap_finer _ (λ t, SlackChannel.slackChannelId t.1)).
  - apply (sublist_NoDup _ _ Hids (batch_tasks_ids connectorId db _)).
  - intros t t' (id & _ & Hch)%batch_tasks_elem
      (id' & _ & Hch')%batch_tasks_elem Heq.
    apply channel_of_Some in Hch as (Hin & _), Hch' as (Hin' & _).
    by rewrite (NoDup_fmap_unique SlackChannel.id _ _ _ Hkeys Hin Hin' Heq).
Qed.

(** The row a channel id stands for, after the tasks of a batch. *)
Lemma channel_of_after_tasks (db : DB) (connectorId : ModelId)
    (tasks : list (SlackChannel.t * ConnectorPermission)) (id : string) :
  channel_of (foldl (λ db t, task_db t db) db tasks) connectorId id
  = apply_tasks tasks <$> channel_of db connectorId id.
Proof.
  unfold channel_of. rewrite tasks_db_tables. simpl.
  rewrite <- fmap_last. f_equal.
  apply (findAll_fmap
           (λ r, SlackChannel.connectorId r = connectorId
                 ∧ SlackChannel.slackChannelId r = id)).
  intros r. destruct (apply_tasks_same_key tasks r) as (_ & -> & ->). done.
Qed.



(** A call that returns [Ok] has seen no task rejected. *)
Lemma batch_result_Ok (w : World) (connectorId : ModelId)
    (queue : list (member * ConnectorPermission)) :
  batch_result w connectorId queue = Ok tt →
  rejection w connectorId queue = None.
Proof. unfold batch_result. by destruct (rejection w connectorId queue). Qed.

(** The two ways to know that no task of a call was rejected. *)
Lemma quiet_rejection_None (w : World) (connectorId : ModelId)
    (permissions : list (string * ConnectorPermission)) (db : DB)
    (c : Connector.t) (cfg : SlackConfiguration.t) :
  findOne (λ r, Connector.id r = connectorId) (connectors db) = Some c →
  findOne (λ r, SlackConfiguration.connectorId r = connectorId)
    (slack_configurations db) = Some cfg →
  plain_ids permissions →
  result_of (setSlackConnectorPermissions w connectorId permissions db)
  = Returned (Ok tt)
  ∨ joins_succeed w db connectorId permissions →
  rejection w connectorId (batch_queue db connectorId permissions) = None.
Proof.
  intros Hc Hcfg Hplain.
  rewrite (setSlackConnectorPermissions_steps w connectorId permissions db
             c cfg Hc Hcfg).
  unfold result_of. cbn [fst]. intros [Hok | Hjoins].
  - apply batch_result_Ok. congruence.
  - by apply plain_rejection_None.
Qed.




(** * Further properties of the connector *)

(** ** The reach of a listing *)

(** What a successful listing is made of. *)
Lemma retrieveSlackConnectorPermissions_Ok_inv (connectorId : ModelId)
    (parentInternalId : option string)
    (filterPermission : option ConnectorPermission) (db db' : DB)
    (resources : list ConnectorResource.t) (tr : list event) :
  retrieveSlackConnectorPermissions connectorId parentInternalId
    filterPermission db = (Returned (Ok resources), db', tr) →
  ∃ cfg,
    findOne (λ r, SlackConfiguration.connectorId r = connectorId)
      (slack_configurations db) = Some cfg
    ∧ resources
      = to_resource (SlackConfiguration.slackTeamId cfg)
        <$> merge_sort channel_order
              (findAll (channel_where connectorId filterPermission)
                       (slack_channels db)).
Proof.
  unfold retrieveSlackConnectorPermissions.
  destruct (truthy parentInternalId); [done|]. run.
  destruct (findOne _ (connectors db)); [|done].
  destruct (findOne _ (slack_configurations db)) as [cfg|]; [|done].
  simpl. intros [= <- _ _]. eauto.
Qed.

(** X2. Listing permissions only reads: whatever the arguments and the
    outcome, the store is left as it was and the trace holds nothing but log
    lines, so no row is written and no external service is called. *)
Theorem retrieveSlackConnectorPermissions_read_only (connectorId : ModelId)
    (parentInternalId : option string)
    (filterPermission : option ConnectorPermission) (db : DB) :
  db_of (retrieveSlackConnectorPermissions connectorId parentInternalId
           filterPermission db) = db
  ∧ Forall is_log
      (trace_of (retrieveSlackConnectorPermissions connectorId
                   parentInternalId filterPermission db))
  ∧ ∃ r, result_of (retrieveSlackConnectorPermissions connectorId
                      parentInternalId filterPermission db) = Returned r.
Proof.
  unfold retrieveSlackConnectorPermissions.
  destruct (truthy parentInternalId); [by eauto|]. run.
  destruct (findOne _ (connectors db));
    [|by repeat split; eauto; repeat constructor].
  destruct (findOne _ (slack_configurations db));
    by repeat split; eauto; repeat constructor.
Qed.

(** X3. A narrower capability lists fewer resources: every resource listed
    for [read_write] is listed for [read] and for [write], and every
    resource listed for a capability is listed when no filter is given. *)
Theorem retrieveSlackConnectorPermissions_narrowing (connectorId : ModelId)
    (parentInternalId : option string)
    (narrow wide : option ConnectorPermission) (db db1 db2 : DB)
    (listed listed' : list ConnectorResource.t) (tr1 tr2 : list event) :
  (narrow = Some read_write ∧ (wide = Some read ∨ wide = Some write))
  ∨ wide = None →
  retrieveSlackConnectorPermissions connectorId parentInternalId narrow db
  = (Returned (Ok listed), db1, tr1) →
  retrieveSlackConnectorPermissions connectorId parentInternalId wide db
  = (Returned (Ok listed'), db2, tr2) →
  listed ⊆ listed'.
Proof.
  intros Hfilters (cfg & Hcfg & ->)%retrieveSlackConnectorPermissions_Ok_inv
    (cfg' & Hcfg' & ->)%retrieveSlackConnectorPermissions_Ok_inv.
  rewrite Hcfg in Hcfg'. injection Hcfg' as <-.
  intros r (ch & -> & Hch)%list_elem_of_fmap.
  apply list_elem_of_fmap. exists ch. split; [done|].
  rewrite merge_sort_Permutation in Hch. rewrite merge_sort_Permutation.
  unfold findAll in *. apply list_elem_of_filter in Hch as [Hwhere Hin].
  apply list_elem_of_filter. split; [|done].
  unfold channel_where, Op_or, permissionToFilter in *.
  destruct Hfilters as [[-> [->| ->]]| ->]; [| |by destruct narrow as [[]|];
                                                   tauto];
    destruct Hwhere as [? Hp]; split; [done| |done|];
    rewrite !elem_of_cons in *; intuition discriminate.
Qed.

Lemma retrieveSlackConnectorPermissions_narrowing_witness :
  [to_resource "T1" (SlackChannel.mk 3 1 "CC" "c" read_write 20)]
  ⊆ [to_resource "T1" (SlackChannel.mk 3 1 "CC" "c" read_write 20);
     to_resource "T1" (SlackChannel.mk 1 1 "CA" "a" read 10)].
Proof.
  apply (retrieveSlackConnectorPermissions_narrowing 1 None
           (Some read_write) (Some read) sample_db sample_db sample_db
           _ _ [] []).
  - left. split; [reflexivity | left; reflexivity].
  - reflexivity.
  - reflexivity.
Defined.

(** ** The titles of channels *)

Lemma titles_lookup (rows : list SlackChannel.t) (id : string) :
  foldl (λ titles ch,
           <[SlackChannel.slackChannelId ch
             := SlackChannel.slackChannelName ch]> titles)
        (∅ : gmap string string) rows !! id
  = SlackChannel.slackChannelName
    <$> last (filter (λ r, SlackChannel.slackChannelId r = id) rows).
Proof.
  induction rows as [|c rows IH] using rev_ind; [done|].
  rewrite foldl_app, filter_app. simpl. rewrite filter_cons, filter_nil.
  destruct (decide (SlackChannel.slackChannelId c = id)) as [<-|Hne].
  - by rewrite lookup_insert_eq, last_snoc.
  - by rewrite lookup_insert_ne, app_nil_r.
Qed.

(** X4. [retrieveSlackChannelsTitles] always returns [Ok], reads only, and
    its answer maps an id to a title exactly when the id was asked for and
    the connector has a row for it; the title is the name in that row.  Ids
    without a row, and ids of other connectors, are absent from the answer. *)
Theorem retrieveSlackChannelsTitles_lookup (connectorId : ModelId)
    (internalIds : list string) (db : DB) :
  ∃ titles,
    retrieveSlackChannelsTitles connectorId internalIds db
    = (Returned (Ok titles), db, [])
    ∧ ∀ id, titles !! id
            = if decide (id ∈ internalIds)
              then SlackChannel.slackChannelName
                   <$> channel_of db connectorId id
              else None.
Proof.
  unfold retrieveSlackChannelsTitles. run. eexists. split; [reflexivity|].
  intros id. rewrite titles_lookup. unfold findAll, channel_of.
  rewrite list_filter_filter. destruct (decide (id ∈ internalIds)) as [Hin|Hin].
  - do 2 f_equal. apply list_filter_iff. intros r. split; [tauto|].
    intros [? Heq]. rewrite Heq. tauto.
  - destruct (filter _ (slack_channels db)) as [|r k] eqn:Hfilter; [done|].
    assert (r ∈ r :: k) as Hr by left. rewrite <- Hfilter in Hr.
    apply list_elem_of_filter in Hr as [(Heq & _ & Hr) _].
    exfalso. apply Hin. by rewrite <- Heq.
Qed.

Lemma filter_unique_key {A B} `{EqDecision B} (f : A → B) (l : list A)
    (x : A) :
  NoDup (f <$> l) → x ∈ l → filter (λ y, f y = f x) l = [x].
Proof.
  induction l as [|a l IH]; intros Hnodup Hin;
    [by apply not_elem_of_nil in Hin|].
  rewrite fmap_cons in Hnodup. apply NoDup_cons in Hnodup as [Hfresh Hnodup].
  assert (∀ y, y ∈ l → f y = f a → False) as Hclash.
  { intros y Hy Heq. apply Hfresh. rewrite <- Heq.
    apply list_elem_of_fmap. by exists y. }
  rewrite filter_cons. apply elem_of_cons in Hin as [->|Hin].
  - rewrite decide_True by done. f_equal.
    destruct (filter (λ y, f y = f a) l) as [|y k] eqn:Hfilter; [done|].
    assert (y ∈ filter (λ y, f y = f a) l) as Hy by (rewrite Hfilter; left).
    apply list_elem_of_filter in Hy as [Heq Hy]. by destruct (Hclash y).
  - rewrite decide_False; [by apply IH|].
    intros Heq. by apply (Hclash x).
Qed.

(** With channel ids stored once per connector, a row is the row its
    channel id stands for. *)
Lemma channel_of_unique (db : DB) (ch : SlackChannel.t) :
  channel_ids_unique db → ch ∈ slack_channels db →
  channel_of db (SlackChannel.connectorId ch) (SlackChannel.slackChannelId ch)
  = Some ch.
Proof.
  intros Hunique Hin. unfold channel_of.
  rewrite (list_filter_iff _
             (λ r, (SlackChannel.connectorId r, SlackChannel.slackChannelId r)
                   = (SlackChannel.connectorId ch,
                      SlackChannel.slackChannelId ch))).
  - by rewrite (filter_unique_key
                  (λ r, (SlackChannel.connectorId r,
                         SlackChannel.slackChannelId r)) _ ch Hunique Hin).
  - intros r. split; [by intros [-> ->] | by intros [= -> ->]].
Qed.

(** X5. The two read operations agree: when the connector stores each
    channel id once, the title that [retrieveSlackChannelsTitles] gives for
    the id of a listed resource is the title shown in the listing. *)
Theorem titles_agree_with_listing (connectorId : ModelId)
    (parentInternalId : option string)
    (filterPermission : option ConnectorPermission) (db db' : DB)
    (resources : list ConnectorResource.t) (tr : list event)
    (internalIds : list string) (r : ConnectorResource.t) :
  channel_ids_unique db →
  retrieveSlackConnectorPermissions connectorId parentInternalId
    filterPermission db = (Returned (Ok resources), db', tr) →
  r ∈ resources →
  ConnectorResource.internalId r ∈ internalIds →
  ∃ titles,
    result_of (retrieveSlackChannelsTitles connectorId internalIds db)
    = Returned (Ok titles)
    ∧ titles !! ConnectorResource.internalId r
      = Some (ConnectorResource.title r).
Proof.
  intros Hunique (cfg & _ & ->)%retrieveSlackConnectorPermissions_Ok_inv
    (ch & -> & Hch)%list_elem_of_fmap Hid.
  rewrite merge_sort_Permutation in Hch. unfold findAll in Hch.
  apply list_elem_of_filter in Hch as [Hwhere Hin].
  assert (SlackChannel.connectorId ch = connectorId) as Hconnector
    by (unfold channel_where in Hwhere; destruct filterPermission; tauto).
  destruct (retrieveSlackChannelsTitles_lookup connectorId internalIds db)
    as (titles & Hrun & Hlookup).
  exists titles. rewrite Hrun. split; [done|].
  rewrite Hlookup. simpl in *. rewrite decide_True by done.
  rewrite <- Hconnector. by rewrite channel_of_unique.
Qed.

Lemma titles_agree_with_listing_witness :
  ∃ titles,
    result_of (retrieveSlackChannelsTitles 1 ["CA"; "CC"] sample_db)
    = Returned (Ok titles)
    ∧ titles !! "CC" = Some "c".
Proof.
  apply (titles_agree_with_listing 1 None (Some read) sample_db sample_db
           [to_resource "T1" (SlackChannel.mk 3 1 "CC" "c" read_write 20);
            to_resource "T1" (SlackChannel.mk 1 1 "CA" "a" read 10)]
           [] ["CA"; "CC"]
           (to_resource "T1" (SlackChannel.mk 3 1 "CC" "c" read_write 20))).
  - unfold channel_ids_unique. simpl. compute_done.
  - reflexivity.
  - apply list_elem_of_In. simpl. auto.
  - apply list_elem_of_In. simpl. auto.
Defined.

(** ** What setting permissions leaves in the store *)

Lemma set_permission_same (r : SlackChannel.t) :
  SlackChannel.set_permission (SlackChannel.permission r) r = r.
Proof. by destruct r. Qed.

Lemma apply_tasks_set_permission
    (tasks : list (SlackChannel.t * ConnectorPermission))
    (r : SlackChannel.t) :
  apply_tasks tasks r
  = SlackChannel.set_permission
      (SlackChannel.permission (apply_tasks tasks r)) r.
Proof.
  revert r. induction tasks as [|t tasks IH]; intros r.
  - simpl. by rewrite set_permission_same.
  - simpl. rewrite (IH (task_row t r)) at 1. unfold task_row.
    repeat case_bool_decide; done.
Qed.

(** The store after a call: the rows of channels after some of the tasks
    of the batch. *)
Lemma setSlackConnectorPermissions_db (w : World) (connectorId : ModelId)
    (permissions : list (string * ConnectorPermission)) (db : DB) :
  db_of (setSlackConnectorPermissions w connectorId permissions db) = db
  ∨ ∃ tasks,
      (∀ t, t ∈ tasks → t ∈ batch_tasks db connectorId permissions)
      ∧ db_of (setSlackConnectorPermissions w connectorId permissions db)
        = mkDB (connectors db) (slack_configurations db)
            (apply_tasks tasks <$> slack_channels db)
            (slack_messages db).
Proof.
  destruct (findOne (λ r, Connector.id r = connectorId) (connectors db))
    as [c|] eqn:Hc.
  2:{ destruct (setSlackConnectorPermissions_not_found w connectorId
                  permissions db (or_introl Hc)) as [e ->]. by left. }
  destruct (findOne (λ r, SlackConfiguration.connectorId r = connectorId)
              (slack_configurations db)) as [cfg|] eqn:Hcfg.
  2:{ destruct (setSlackConnectorPermissions_not_found w connectorId
                  permissions db (or_intror Hcfg)) as [e ->]. by left. }
  right.
  rewrite (setSlackConnectorPermissions_steps w connectorId permissions db
             c cfg Hc Hcfg).
  unfold db_of. cbn [fst snd]. eexists. split; [|apply tasks_db_tables].
  apply executed_elem.
Qed.

(** The tasks of a batch leave alone the rows of other connectors and the
    rows of channels that the batch does not name. *)
Lemma apply_tasks_outside (db : DB) (connectorId : ModelId)
    (permissions : list (string * ConnectorPermission))
    (tasks : list (SlackChannel.t * ConnectorPermission))
    (r : SlackChannel.t) :
  (∀ t, t ∈ tasks → t ∈ batch_tasks db connectorId permissions) →
  NoDup (SlackChannel.id <$> slack_channels db) →
  r ∈ slack_channels db →
  SlackChannel.connectorId r ≠ connectorId
  ∨ SlackChannel.slackChannelId r ∉ permissions.*1 →
  apply_tasks tasks r = r.
Proof.
  intros Htasks Hkeys Hin Houtside. apply apply_tasks_other.
  intros [ch p] (id & Hentry & Hch)%Htasks%batch_tasks_elem Heq. simpl in *.
  apply channel_of_Some in Hch as (Hin' & Hconnector & Hid).
  assert (ch = r) as ->
    by apply (NoDup_fmap_unique SlackChannel.id _ _ _ Hkeys Hin' Hin Heq).
  destruct Houtside as [?|Hnot]; [done|]. apply Hnot. rewrite Hid.
  apply list_elem_of_fmap. by exists (id, p).
Qed.

(** X6. Setting permissions changes nothing but the [permission] column of
    the channels it names.  Whatever the outcome, the tables of connectors,
    configurations and messages are as before, the table of channels keeps
    its rows in place with every column but [permission] untouched, and,
    primary keys being distinct, the rows of other connectors and of
    channels outside the batch are exactly as before. *)
Theorem setSlackConnectorPermissions_frame (w : World) (db : DB)
    (connectorId : ModelId)
    (permissions : list (string * ConnectorPermission)) :
  NoDup (SlackChannel.id <$> slack_channels db) →
  let db' := db_of (setSlackConnectorPermissions w connectorId permissions db)
  in
  connectors db' = connectors db
  ∧ slack_configurations db' = slack_configurations db
  ∧ slack_messages db' = slack_messages db
  ∧ Forall2 (λ r r', r' = SlackChannel.set_permission
                            (SlackChannel.permission r') r)
      (slack_channels db) (slack_channels db')
  ∧ ∀ i r, slack_channels db !! i = Some r →
           SlackChannel.connectorId r ≠ connectorId
           ∨ SlackChannel.slackChannelId r ∉ permissions.*1 →
           slack_channels db' !! i = Some r.
Proof.
  intros Hkeys db'. subst db'.
  destruct (setSlackConnectorPermissions_db w connectorId permissions db)
    as [-> | (tasks & Htasks & ->)].
  - do 3 (split; [done|]). split; [|done].
    apply Forall2_same_length_lookup. split; [done|].
    intros i r r' Hr Hr'. simplify_eq. by rewrite set_permission_same.
  - simpl. do 3 (split; [done|]). split.
    + apply Forall2_fmap_r, Forall_Forall2_diag, Forall_forall.
      intros r _. apply apply_tasks_set_permission.
    + intros i r Hr Houtside. rewrite list_lookup_fmap, Hr. simpl. f_equal.
      apply (apply_tasks_outside db connectorId permissions);
        [done|done| |done].
      by apply list_elem_of_lookup_2 in Hr.
Qed.

Lemma setSlackConnectorPermissions_frame_witness :
  slack_channels
    (db_of (setSlackConnectorPermissions sample_world 1
              [("CA", none); ("CD", read)] sample_db)) !! 4%nat
  = Some (SlackChannel.mk 5 2 "CA" "a" read 10).
Proof.
  pose proof (setSlackConnectorPermissions_frame sample_world sample_db 1
                [("CA", none); ("CD", read)]) as Hframe.
  destruct Hframe as (_ & _ & _ & _ & Hrows); [simpl; compute_done|].
  apply Hrows; [reflexivity|]. left. simpl. lia.
Defined.

(** X7. Let no id of the batch be the name of a member of
    [Object.prototype] and no task of the call be rejected: the call returns
    [Ok] or, more generally, every bot-join launch it asks for succeeds.  On
    a store with distinct primary keys and for a batch with distinct ids,
    every channel of the batch that has a row then carries the permission
    asked for, with its other columns untouched. *)
Theorem setSlackConnectorPermissions_stores (w : World) (db : DB)
    (connectorId : ModelId)
    (permissions : list (string * ConnectorPermission))
    (c : Connector.t) (cfg : SlackConfiguration.t)
    (id : string) (p : ConnectorPermission) (ch : SlackChannel.t) :
  findOne (λ r, Connector.id r = connectorId) (connectors db) = Some c →
  findOne (λ r, SlackConfiguration.connectorId r = connectorId)
    (slack_configurations db) = Some cfg →
  NoDup (SlackChannel.id <$> slack_channels db) →
  NoDup permissions.*1 →
  plain_ids permissions →
  result_of (setSlackConnectorPermissions w connectorId permissions db)
  = Returned (Ok tt)
  ∨ joins_succeed w db connectorId permissions →
  (id, p) ∈ permissions →
  channel_of db connectorId id = Some ch →
  channel_of
    (db_of (setSlackConnectorPermissions w connectorId permissions db))
    connectorId id
  = Some (SlackChannel.set_permission p ch).
Proof.
  intros Hc Hcfg Hkeys Hids Hplain Hquiet Hentry Hch.
  pose proof (quiet_rejection_None w connectorId permissions db c cfg Hc Hcfg
                Hplain Hquiet) as Hnone.
  rewrite (setSlackConnectorPermissions_steps w connectorId permissions db
             c cfg Hc Hcfg).
  unfold db_of. cbn [fst snd].
  rewrite (executed_all w connectorId db permissions Hnone).
  rewrite channel_of_after_tasks, Hch. simpl. f_equal.
  rewrite apply_tasks_set_permission. f_equal.
  apply apply_tasks_self; [by apply batch_tasks_keys|].
  apply batch_tasks_elem. eauto.
Qed.

Lemma setSlackConnectorPermissions_stores_witness :
  channel_of
    (db_of (setSlackConnectorPermissions sample_world 1
              [("CA", write); ("CB", none)] sample_db)) 1 "CA"
  = Some (SlackChannel.mk 1 1 "CA" "a" write 10).
Proof.
  apply (setSlackConnectorPermissions_stores sample_world sample_db 1
           [("CA", write); ("CB", none)]
           (Connector.mk 1 "slack" "conn-1" "key" "w1" "slack-ds" read_write)
           (SlackConfiguration.mk 1 "T1" 1 false)
           "CA" write (SlackChannel.mk 1 1 "CA" "a" read 10));
    try reflexivity.
  - simpl. compute_done.
  - simpl. compute_done.
  - intros id Hid. apply list_elem_of_In in Hid. simpl in Hid.
    destruct Hid as [<-|[<-|[]]]; compute_done.
  - left. reflexivity.
  - apply list_elem_of_In. simpl. auto.
Defined.

(** X8. Let the connector and its configuration exist and no id of the
    batch be the name of a member of [Object.prototype].  A call that sets
    permissions then never throws, and it returns [Ok] exactly when no
    bot-join launch for a channel that gains read access fails and, if some
    channel loses read access, the launch of the garbage collection does not
    fail. *)
Theorem setSlackConnectorPermissions_Ok_iff (w : World) (db : DB)
    (connectorId : ModelId)
    (permissions : list (string * ConnectorPermission))
    (c : Connector.t) (cfg : SlackConfiguration.t) :
  findOne (λ r, Connector.id r = connectorId) (connectors db) = Some c →
  findOne (λ r, SlackConfiguration.connectorId r = connectorId)
    (slack_configurations db) = Some cfg →
  plain_ids permissions →
  let run := setSlackConnectorPermissions w connectorId permissions db in
  (∃ r, result_of run = Returned r)
  ∧ (result_of run = Returned (Ok tt)
     ↔ (∀ id p ch,
          (id, p) ∈ permissions →
          channel_of db connectorId id = Some ch →
          gains_read (SlackChannel.permission ch) p = true →
          isErr (launchSlackBotJoinedWorkflow w (pretty connectorId) id)
          = false)
       ∧ ((∃ id p ch,
             (id, p) ∈ permissions
             ∧ channel_of db connectorId id = Some ch
             ∧ loses_read (SlackChannel.permission ch) p = true) →
          isErr (launchSlackGarbageCollectWorkflow w (pretty connectorId))
          = false)).
Proof.
  intros Hc Hcfg Hplain run. subst run.
  rewrite (setSlackConnectorPermissions_steps w connectorId permissions db
             c cfg Hc Hcfg).
  unfold result_of. cbn [fst]. split; [eauto|].
  fold (joins_succeed w db connectorId permissions).
  set (queue := batch_queue db connectorId permissions).
  assert (rejection w connectorId queue = None
          ↔ joins_succeed w db connectorId permissions) as Hjoins.
  { unfold queue. rewrite rejection_None, joins_succeed_rejection.
    split; [tauto|]. intros Hnone. split; [done|].
    intros id Hid _. by apply Hplain. }
  assert (rejection w connectorId queue = None →
          (existsb task_loses_read (executed w connectorId queue) = true
           ↔ ∃ id p ch,
               (id, p) ∈ permissions
               ∧ channel_of db connectorId id = Some ch
               ∧ loses_read (SlackChannel.permission ch) p = true))
    as Hloss.
  { intros Hnone. unfold queue.
    rewrite (executed_all w connectorId db permissions Hnone).
    rewrite existsb_exists. split.
    - intros ([ch p] & Hin & Hlost). apply list_elem_of_In in Hin.
      apply batch_tasks_elem in Hin as (id & Hentry & Hch). eauto 6.
    - intros (id & p & ch & Hentry & Hch & Hlost). exists (ch, p).
      split; [|done]. apply list_elem_of_In, batch_tasks_elem. eauto. }
  unfold batch_result.
  destruct (rejection w connectorId queue) as [e|].
  - split; [done|]. intros [Hok _]. by apply Hjoins in Hok.
  - specialize (Hloss eq_refl).
    destruct (existsb task_loses_read (executed w connectorId queue)).
    + destruct (launchSlackGarbageCollectWorkflow w _) as [?|e]; simpl.
      * split; [|done]. intros _. split; [by apply Hjoins | done].
      * split; [done|]. intros [_ Hgc].
        specialize (Hgc (proj1 Hloss eq_refl)). discriminate Hgc.
    + split; [|done]. intros _. split; [by apply Hjoins|].
      intros Hlost. by apply Hloss in Hlost.
Qed.

Lemma setSlackConnectorPermissions_Ok_iff_witness :
  ¬ (result_of (setSlackConnectorPermissions sample_world 1
                  [("CA", none); ("CD", read)] sample_db)
     = Returned (Ok tt)).
Proof.
  assert (plain_ids [("CA", none); ("CD", read)]) as Hplain.
  { intros id Hid. apply list_elem_of_In in Hid. simpl in Hid.
    destruct Hid as [<-|[<-|[]]]; compute_done. }
  pose proof (setSlackConnectorPermissions_Ok_iff sample_world sample_db 1
                [("CA", none); ("CD", read)]
                (Connector.mk 1 "slack" "conn-1" "key" "w1" "slack-ds"
                   read_write)
                (SlackConfiguration.mk 1 "T1" 1 false) eq_refl eq_refl
                Hplain)
    as (_ & Hiff).
  intros Hok. apply Hiff in Hok as [Hjoins _].
  specialize (Hjoins "CD" read (SlackChannel.mk 4 1 "CD" "d" none 5)).
  discriminate Hjoins; [|reflexivity..].
  apply list_elem_of_In. simpl. auto.
Defined.

(** ** Setting permissions, then listing them *)

Lemma channel_ids_unique_after_tasks (db : DB)
    (tasks : list (SlackChannel.t * ConnectorPermission)) :
  channel_ids_unique db →
  channel_ids_unique
    (mkDB (connectors db) (slack_configurations db)
       (apply_tasks tasks <$> slack_channels db) (slack_messages db)).
Proof.
  unfold channel_ids_unique. simpl. intros Hunique.
  rewrite <- list_fmap_compose.
  erewrite list_fmap_ext; [exact Hunique|].
  intros i r _. simpl.
  by destruct (apply_tasks_same_key tasks r) as (_ & -> & ->).
Qed.

(** X9. Round trip of a permission.  On a store with distinct primary keys
    in which the connector stores each channel id once, after a call that
    sets the channel [id] to [p], on a batch none of whose ids is the name
    of a member of [Object.prototype], and in which no task was rejected
    (the call returns [Ok] or, more generally, every bot-join launch it asks
    for succeeds), a listing under a capability shows a resource for [id]
    exactly when [p] matches that capability, and every resource it shows
    for [id] carries the permission [p]. *)
Theorem set_then_retrieve (w : World) (db : DB) (connectorId : ModelId)
    (permissions : list (string * ConnectorPermission))
    (c : Connector.t) (cfg : SlackConfiguration.t)
    (id : string) (p : ConnectorPermission) (ch : SlackChannel.t)
    (filterPermission : option ConnectorPermission) :
  findOne (λ r, Connector.id r = connectorId) (connectors db) = Some c →
  findOne (λ r, SlackConfiguration.connectorId r = connectorId)
    (slack_configurations db) = Some cfg →
  NoDup (SlackChannel.id <$> slack_channels db) →
  channel_ids_unique db →
  NoDup permissions.*1 →
  plain_ids permissions →
  result_of (setSlackConnectorPermissions w connectorId permissions db)
  = Returned (Ok tt)
  ∨ joins_succeed w db connectorId permissions →
  (id, p) ∈ permissions →
  channel_of db connectorId id = Some ch →
  filterPermission ≠ Some none →
  ∃ resources,
    result_of
      (retrieveSlackConnectorPermissions connectorId None filterPermission
         (db_of (setSlackConnectorPermissions w connectorId permissions db)))
    = Returned (Ok resources)
    ∧ ((∃ r, r ∈ resources ∧ ConnectorResource.internalId r = id)
       ↔ capability_matches filterPermission p)
    ∧ ∀ r, r ∈ resources → ConnectorResource.internalId r = id →
           ConnectorResource.permission r = p.
Proof.
  intros Hc Hcfg Hkeys Hunique Hids Hplain Hquiet Hentry Hch Hfilter.
  pose proof (quiet_rejection_None w connectorId permissions db c cfg Hc Hcfg
                Hplain Hquiet) as Hnone.
  rewrite (setSlackConnectorPermissions_steps w connectorId permissions db
             c cfg Hc Hcfg).
  unfold db_of. cbn [fst snd].
  rewrite (executed_all w connectorId db permissions Hnone).
  assert (channel_of
            (foldl (λ db t, task_db t db) db
               (batch_tasks db connectorId permissions)) connectorId id
          = Some (SlackChannel.set_permission p ch)) as Hafter.
  { rewrite channel_of_after_tasks, Hch. simpl. f_equal.
    rewrite apply_tasks_set_permission. f_equal.
    apply apply_tasks_self; [by apply batch_tasks_keys|].
    apply batch_tasks_elem. eauto. }
  revert Hafter. rewrite tasks_db_tables.
  set (db' := mkDB _ _ _ _). intros Hafter.
  assert (channel_ids_unique db') as Hunique'
    by (by apply channel_ids_unique_after_tasks).
  destruct (retrieveSlackConnectorPermissions_filter db' connectorId None
              filterPermission c cfg eq_refl Hfilter Hc Hcfg)
    as (resources & Hrun & Hperm).
  exists resources. rewrite Hrun. split; [done|].
  pose proof (channel_of_Some _ _ _ _ Hafter)
    as (Hin' & Hconnector' & Hid').
  assert (∀ r, r ∈ resources → ConnectorResource.internalId r = id →
               r = to_resource (SlackConfiguration.slackTeamId cfg)
                     (SlackChannel.set_permission p ch)
               ∧ capability_matches filterPermission p) as Hshown.
  { intros r Hr Hrid. rewrite Hperm in Hr.
    apply list_elem_of_fmap in Hr as (ch' & -> & Hch').
    apply list_elem_of_filter in Hch' as [[Hconn Hmatch] Hrow].
    simpl in Hrid.
    pose proof (channel_of_unique db' ch' Hunique' Hrow) as Hsame.
    rewrite Hconn, Hrid, Hafter in Hsame. injection Hsame as <-.
    done. }
  split; [split|].
  - intros (r & Hr & Hrid). by destruct (Hshown r Hr Hrid).
  - intros Hmatch.
    exists (to_resource (SlackConfiguration.slackTeamId cfg)
              (SlackChannel.set_permission p ch)).
    split; [|exact Hid']. rewrite Hperm. apply list_elem_of_fmap.
    eexists. split; [reflexivity|]. apply list_elem_of_filter. done.
  - intros r Hr Hrid. by destruct (Hshown r Hr Hrid) as [-> _].
Qed.

Lemma set_then_retrieve_witness :
  ∃ resources,
    result_of
      (retrieveSlackConnectorPermissions 1 None (Some write)
         (db_of (setSlackConnectorPermissions sample_world 1
                   [("CA", write); ("CB", none)] sample_db)))
    = Returned (Ok resources)
    ∧ ((∃ r, r ∈ resources ∧ ConnectorResource.internalId r = "CA")
       ↔ capability_matches (Some write) write)
    ∧ ∀ r, r ∈ resources → ConnectorResource.internalId r = "CA" →
           ConnectorResource.permission r = write.
Proof.
  apply (set_then_retrieve sample_world sample_db 1
           [("CA", write); ("CB", none)]
           (Connector.mk 1 "slack" "conn-1" "key" "w1" "slack-ds" read_write)
           (SlackConfiguration.mk 1 "T1" 1 false)
           "CA" write (SlackChannel.mk 1 1 "CA" "a" read 10) (Some write));
    try reflexivity; try done.
  - simpl. compute_done.
  - unfold channel_ids_unique. simpl. compute_done.
  - simpl. compute_done.
  - intros id Hid. apply list_elem_of_In in Hid. simpl in Hid.
    destruct Hid as [<-|[<-|[]]]; compute_done.
  - left. reflexivity.
  - apply list_elem_of_In. simpl. auto.
Defined.

(** ** A connector that has just been created *)

Lemma next_id_fresh (ids : list Z) : next_id ids ∉ ids.
Proof.
  assert (∀ x, x ∈ ids → x ≤ foldr Z.max 0 ids) as Hbound.
  { induction ids as [|a ids IH]; intros x Hx;
      [by apply not_elem_of_nil in Hx|].
    simpl. apply elem_of_cons in Hx as [->|Hx]; [lia|].
    specialize (IH x Hx). lia. }
  intros Hin. specialize (Hbound _ Hin). unfold next_id in Hbound. lia.
Qed.

Lemma findOne_snoc {R} (P : R → Prop) `{∀ r, Decision (P r)}
    (rows : list R) (row : R) :
  (∀ r, r ∈ rows → ¬ P r) → P row → findOne P (rows ++ [row]) = Some row.
Proof.
  intros Hno Hrow. unfold findOne. rewrite filter_app.
  apply (findOne_None P) in Hno. unfold findOne in Hno.
  apply head_None in Hno as ->.
  by rewrite filter_cons, decide_True.
Qed.

(** X10. With valid credentials [createSlackConnector] appends one
    [Connector] row, with the default permission [read_write], and one
    [SlackConfiguration] row for it, with the team id of the credentials and
    the bot disabled; it then launches the sync workflow of the new
    connector.  The answer is the id of the connector when the launch
    succeeds and the error of the launch when it fails; in both cases the two
    rows stay in the store. *)
Theorem createSlackConnector_success (w : World)
    (dataSourceConfig : DataSourceConfig) (connectionId : string) (db : DB)
    (nango_id team : string) :
  truthy (NANGO_SLACK_CONNECTOR_ID w) = Some nango_id →
  let token := nango_getToken w nango_id connectionId in
  ti_ok (slack_team_info w token) = true →
  truthy (ti_team_id (slack_team_info w token)) = Some team →
  let id := next_id (Connector.id <$> connectors db) in
  let connector :=
    Connector.mk id "slack" connectionId
      (dsc_workspaceAPIKey dataSourceConfig)
      (dsc_workspaceId dataSourceConfig)
      (dsc_dataSourceName dataSourceConfig) read_write in
  let configuration :=
    SlackConfiguration.mk
      (next_id (SlackConfiguration.id <$> slack_configurations db))
      team id false in
  let run := createSlackConnector w dataSourceConfig connectionId db in
  db_of run
  = mkDB (connectors db ++ [connector])
      (slack_configurations db ++ [configuration])
      (slack_channels db) (slack_messages db)
  ∧ count_events (λ e, e = LaunchSlackSyncWorkflow (pretty id)) (trace_of run)
    = 1%nat
  ∧ result_of run
    = Returned
        match launchSlackSyncWorkflow w (pretty id) with
        | Ok _ => Ok (pretty id)
        | Err e => Err e
        end.
Proof.
  intros Henv token Hok Hteam id connector configuration run.
  subst run. unfold createSlackConnector. rewrite Henv. run. fold token.
  rewrite Hok, Hteam. simpl. fold id.
  destruct (launchSlackSyncWorkflow w (pretty id)); simpl;
    (split; [done|]); (split; [|done]);
    unfold count_events; rewrite !filter_cons;
    repeat (rewrite decide_False by done);
    by rewrite decide_True.
Qed.

Lemma createSlackConnector_success_witness :
  db_of (createSlackConnector sample_world
           (mkDataSourceConfig "key" "w3" "slack-ds") "conn-3" sample_db)
  = mkDB (connectors sample_db
            ++ [Connector.mk 3 "slack" "conn-3" "key" "w3" "slack-ds"
                  read_write])
      (slack_configurations sample_db
         ++ [SlackConfiguration.mk 3 "T1" 3 false])
      (slack_channels sample_db) (slack_messages sample_db)
  ∧ result_of (createSlackConnector sample_world
                 (mkDataSourceConfig "key" "w3" "slack-ds") "conn-3"
                 sample_db)
    = Returned (Ok "3").
Proof.
  pose proof (createSlackConnector_success sample_world
                (mkDataSourceConfig "key" "w3" "slack-ds") "conn-3"
                sample_db "nango-slack" "T1" eq_refl eq_refl eq_refl)
    as (Hdb & _ & Hres).
  split; [exact Hdb | exact Hres].
Defined.

(** X11. A connector that has just been created is new and empty.  When
    the rows of the store refer to connectors of the store, the id given to
    the new connector is the id of no earlier connector, its bot is
    disabled, and its listing of permissions is empty. *)
Theorem createSlackConnector_fresh (w : World)
    (dataSourceConfig : DataSourceConfig) (connectionId : string) (db : DB)
    (nango_id team : string)
    (filterPermission : option ConnectorPermission) :
  references_valid db →
  truthy (NANGO_SLACK_CONNECTOR_ID w) = Some nango_id →
  let token := nango_getToken w nango_id connectionId in
  ti_ok (slack_team_info w token) = true →
  truthy (ti_team_id (slack_team_info w token)) = Some team →
  let id := next_id (Connector.id <$> connectors db) in
  let db' := db_of (createSlackConnector w dataSourceConfig connectionId db)
  in
  (id ∉ Connector.id <$> connectors db)
  ∧ getBotEnabled id db' = (Returned (Ok false), db', [])
  ∧ retrieveSlackConnectorPermissions id None filterPermission db'
    = (Returned (Ok []), db', []).
Proof.
  intros [Hconfigs Hchannels] Henv token Hok Hteam id db'.
  destruct (createSlackConnector_success w dataSourceConfig connectionId db
              nango_id team Henv Hok Hteam) as (Hdb & _).
  fold token id db' in Hdb. rewrite Hdb. clear Hdb db'.
  pose proof (next_id_fresh (Connector.id <$> connectors db)) as Hfresh.
  fold id in Hfresh. split; [done|].
  assert (∀ r, r ∈ slack_configurations db
               → ¬ SlackConfiguration.connectorId r = id) as Hnoconfig.
  { intros r Hr Heq. apply Hfresh. rewrite <- Heq. by apply Hconfigs. }
  assert (∀ r, r ∈ connectors db → ¬ Connector.id r = id) as Hnoconnector.
  { intros r Hr Heq. apply Hfresh. rewrite <- Heq.
    apply list_elem_of_fmap. by exists r. }
  split.
  - unfold getBotEnabled. run.
    by erewrite findOne_snoc; [|exact Hnoconfig|reflexivity].
  - unfold retrieveSlackConnectorPermissions. run.
    erewrite findOne_snoc; [|exact Hnoconnector|reflexivity]. simpl.
    erewrite findOne_snoc; [|exact Hnoconfig|reflexivity]. simpl.
    assert (findAll (channel_where id filterPermission) (slack_channels db)
            = []) as ->; [|done].
    unfold findAll.
    destruct (filter _ (slack_channels db)) as [|r k] eqn:Hfilter; [done|].
    assert (r ∈ r :: k) as Hr by left. rewrite <- Hfilter in Hr.
    apply list_elem_of_filter in Hr as [Hwhere Hr].
    exfalso. apply Hfresh.
    assert (SlackChannel.connectorId r = id) as <-
      by (unfold channel_where in Hwhere; destruct filterPermission; tauto).
    by apply Hchannels.
Qed.

Lemma createSlackConnector_fresh_witness :
  getBotEnabled 3
    (db_of (createSlackConnector sample_world
              (mkDataSourceConfig "key" "w3" "slack-ds") "conn-3" sample_db))
  = (Returned (Ok false),
     db_of (createSlackConnector sample_world
              (mkDataSourceConfig "key" "w3" "slack-ds") "conn-3" sample_db),
     []).
Proof.
  assert (references_valid sample_db) as Hvalid.
  { split; intros r Hr; apply list_elem_of_In in Hr; simpl in Hr;
      apply list_elem_of_In; simpl;
      repeat (destruct Hr as [<-|Hr]; [simpl; auto|]); destruct Hr. }
  pose proof (createSlackConnector_fresh sample_world
                (mkDataSourceConfig "key" "w3" "slack-ds") "conn-3"
                sample_db "nango-slack" "T1" None Hvalid eq_refl eq_refl
                eq_refl) as (_ & Hbot & _).
  exact Hbot.
Defined.

(** ** Updating a connector: the accepted requests *)

Lemma apply_update_nothing (c : Connector.t) :
  apply_update (mkUpdateParams None None) c = c.
Proof. by destruct c. Qed.

(** X12. An update that passes the team check is applied to the connector
    and to nothing else.  When no new connection is given, or the new
    connection resolves to the team of the connector's configuration, the
    call returns the id of the connector; afterwards the row found for the
    connector carries the new connection and default permission where they
    were given and its old values where they were not, rows with another
    primary key are in place unchanged, and the other tables are as before. *)
Theorem updateSlackConnector_applies (w : World) (db : DB)
    (connectorId : ModelId) (connectionId : option string)
    (defaultNewResourcePermission : option ConnectorPermission)
    (nango_id : string) (c : Connector.t) (cfg : SlackConfiguration.t) :
  truthy (NANGO_SLACK_CONNECTOR_ID w) = Some nango_id →
  findOne (λ r, Connector.id r = connectorId) (connectors db) = Some c →
  findOne (λ r, SlackConfiguration.connectorId r = connectorId)
    (slack_configurations db) = Some cfg →
  (∀ newConnectionId,
     truthy connectionId = Some newConnectionId →
     truthy (nango_getConnection w nango_id newConnectionId)
     = Some (SlackConfiguration.slackTeamId cfg)) →
  let run :=
    updateSlackConnector w connectorId connectionId
      defaultNewResourcePermission db in
  result_of run = Returned (Ok (pretty connectorId))
  ∧ findOne (λ r, Connector.id r = connectorId) (connectors (db_of run))
    = Some (Connector.mk connectorId (Connector.type c)
              (default (Connector.connectionId c) (truthy connectionId))
              (Connector.workspaceAPIKey c) (Connector.workspaceId c)
              (Connector.dataSourceName c)
              (default (Connector.defaultNewResourcePermission c)
                 defaultNewResourcePermission))
  ∧ (∀ i r, connectors db !! i = Some r → Connector.id r ≠ connectorId →
            connectors (db_of run) !! i = Some r)
  ∧ slack_configurations (db_of run) = slack_configurations db
  ∧ slack_channels (db_of run) = slack_channels db
  ∧ slack_messages (db_of run) = slack_messages db.
Proof.
  intros Henv Hc Hcfg Hteam run. subst run.
  pose proof (findOne_Some _ _ _ Hc) as [_ Hid]. subst connectorId.
  unfold updateSlackConnector. rewrite Henv. run. rewrite Hc, Hcfg. simpl.
  assert (∀ params,
            findOne (λ r, Connector.id r = Connector.id c)
              (update_where_pk Connector.id (Connector.id c)
                 (apply_update params) (connectors db))
            = Some (apply_update params c)
            ∧ ∀ i r, connectors db !! i = Some r →
                     Connector.id r ≠ Connector.id c →
                     update_where_pk Connector.id (Connector.id c)
                       (apply_update params) (connectors db) !! i = Some r)
    as Hupdate.
  { intros params. unfold update_where_pk. split.
    - rewrite findOne_fmap, Hc; simpl.
      + by rewrite bool_decide_eq_true_2.
      + intros r. by case_bool_decide.
    - intros i r Hr Hne. rewrite list_lookup_fmap, Hr. simpl.
      by rewrite bool_decide_eq_false_2 by congruence. }
  destruct (truthy connectionId) as [conn|] eqn:Hconn; simpl.
  - rewrite (Hteam conn eq_refl). simpl.
    rewrite bool_decide_eq_false_2 by (intros Hne; by apply Hne). simpl.
    destruct (Hupdate (mkUpdateParams (Some conn)
                         defaultNewResourcePermission)) as [Hfound Hothers].
    case_bool_decide as Hsame; simpl.
    + rewrite Hc. split; [done|]. split; [|done]. by rewrite <- Hsame at 1.
    + rewrite Hfound. by repeat split.
  - destruct (Hupdate (mkUpdateParams None defaultNewResourcePermission))
      as [Hfound Hothers].
    case_bool_decide as Hsame; simpl.
    + rewrite Hc. split; [done|]. split; [|done]. by rewrite <- Hsame at 1.
    + rewrite Hfound. by repeat split.
Qed.

Lemma updateSlackConnector_applies_witness :
  result_of (updateSlackConnector sample_world 1 (Some "conn-1b")
               (Some read) sample_db) = Returned (Ok "1")
  ∧ findOne (λ r, Connector.id r = 1)
      (connectors (db_of (updateSlackConnector sample_world 1
                            (Some "conn-1b") (Some read) sample_db)))
    = Some (Connector.mk 1 "slack" "conn-1b" "key" "w1" "slack-ds" read).
Proof.
  pose proof (updateSlackConnector_applies sample_world sample_db 1
                (Some "conn-1b") (Some read) "nango-slack"
                (Connector.mk 1 "slack" "conn-1" "key" "w1" "slack-ds"
                   read_write)
                (SlackConfiguration.mk 1 "T1" 1 false)
                eq_refl eq_refl eq_refl) as Happlies.
  destruct Happlies as (Hres & Hfound & _).
  - intros conn [= <-]. reflexivity.
  - split; [exact Hres | exact Hfound].
Defined.

(** X13. An update request that gives neither a connection nor a default
    permission is accepted and does nothing: the call returns the id of the
    connector, writes nothing, calls no external service, and leaves the
    store as it was.  An empty string counts as no connection. *)
Theorem updateSlackConnector_nothing_to_do (w : World) (db : DB)
    (connectorId : ModelId) (connectionId : option string)
    (nango_id : string) (c : Connector.t) (cfg : SlackConfiguration.t) :
  truthy (NANGO_SLACK_CONNECTOR_ID w) = Some nango_id →
  findOne (λ r, Connector.id r = connectorId) (connectors db) = Some c →
  findOne (λ r, SlackConfiguration.connectorId r = connectorId)
    (slack_configurations db) = Some cfg →
  truthy connectionId = None →
  updateSlackConnector w connectorId connectionId None db
  = (Returned (Ok (pretty connectorId)), db, []).
Proof.
  intros Henv Hc Hcfg Hconn.
  pose proof (findOne_Some _ _ _ Hc) as [_ Hid]. subst connectorId.
  unfold updateSlackConnector. rewrite Henv. run.
  rewrite Hc, Hcfg, Hconn. simpl.
  by rewrite bool_decide_eq_true_2 by apply apply_update_nothing.
Qed.

Lemma updateSlackConnector_nothing_to_do_witness :
  updateSlackConnector sample_world 2 (Some "") None sample_db
  = (Returned (Ok "2"), sample_db, []).
Proof.
  apply (updateSlackConnector_nothing_to_do sample_world sample_db 2
           (Some "") "nango-slack"
           (Connector.mk 2 "slack" "conn-2" "key" "w2" "slack-ds" read_write)
           (SlackConfiguration.mk 2 "T9" 2 false));
    reflexivity.
Defined.

(** X14. An update of a connector that is unknown, or that has no
    configuration, answers [connector_not_found] before the new connection
    is looked at: the store is left as it was and the trace holds one log
    line and no call to an external service. *)
Theorem updateSlackConnector_not_found (w : World) (db : DB)
    (connectorId : ModelId) (connectionId : option string)
    (defaultNewResourcePermission : option ConnectorPermission)
    (nango_id : string) :
  truthy (NANGO_SLACK_CONNECTOR_ID w) = Some nango_id →
  findOne (λ r, Connector.id r = connectorId) (connectors db) = None
  ∨ findOne (λ r, SlackConfiguration.connectorId r = connectorId)
      (slack_configurations db) = None →
  ∃ e log,
    updateSlackConnector w connectorId connectionId
      defaultNewResourcePermission db = (Returned (Err e), db, [log])
    ∧ error_type e = "connector_not_found"
    ∧ is_log log.
Proof.
  intros Henv Hnone. unfold updateSlackConnector. rewrite Henv. run.
  destruct (findOne _ (connectors db)); simpl.
  - destruct Hnone as [?|Hnone]; [done|]. rewrite Hnone. simpl.
    eexists _, _. by split; [reflexivity|].
  - eexists _, _. by split; [reflexivity|].
Qed.

Lemma updateSlackConnector_not_found_witness :
  ∃ e log,
    updateSlackConnector sample_world 7 (Some "conn-other") None sample_db
    = (Returned (Err e), sample_db, [log])
    ∧ error_type e = "connector_not_found"
    ∧ is_log log.
Proof.
  apply (updateSlackConnector_not_found sample_world sample_db 7
           (Some "conn-other") None "nango-slack").
  - reflexivity.
  - left. reflexivity.
Defined.

(** ** After a clean-up *)

(** The store after a clean-up, in both of its outcomes. *)
Lemma cleanupSlackConnector_db (w : World) (connectorId : ModelId) (db : DB) :
  (result_of (cleanupSlackConnector w connectorId db) ≠ Returned (Ok tt)
   ∧ db_of (cleanupSlackConnector w connectorId db) = db)
  ∨ (result_of (cleanupSlackConnector w connectorId db) = Returned (Ok tt)
     ∧ is_Some (findOne (λ r, Connector.id r = connectorId) (connectors db))
     ∧ db_of (cleanupSlackConnector w connectorId db)
       = mkDB (connectors db)
           (destroy (λ r, SlackConfiguration.connectorId r = connectorId)
              (slack_configurations db))
           (slack_channels db)
           (destroy (λ r, SlackMessages.connectorId r = connectorId)
              (slack_messages db))).
Proof.
  unfold cleanupSlackConnector. run.
  destruct (findOne _ (connectors db)) as [c|]; simpl; [|by left].
  destruct (findOne _ (slack_configurations db)) as [cfg|]; simpl;
    [|by left].
  case_bool_decide; simpl; [|by right; eauto].
  destruct (truthy (NANGO_SLACK_CONNECTOR_ID w)); simpl; [|by left].
  destruct (truthy (SLACK_CLIENT_ID w)); simpl; [|by left].
  destruct (truthy (SLACK_CLIENT_SECRET w)); simpl; [|by left].
  destruct (un_ok _); simpl; [|by left].
  destruct (nangoDeleteConnection w _ _); simpl; [by right; eauto | by left].
Qed.

(** X15. A clean-up never deletes a [Connector] row or a [SlackChannel]
    row, and never touches a row of another connector: whatever the
    arguments and the outcome, the tables of connectors and of channels are
    as before, and so are the configuration rows and the message rows of
    every other connector. *)
Theorem cleanupSlackConnector_frame (w : World) (connectorId : ModelId)
    (db : DB) :
  let db' := db_of (cleanupSlackConnector w connectorId db) in
  connectors db' = connectors db
  ∧ slack_channels db' = slack_channels db
  ∧ ∀ sibling,
      sibling ≠ connectorId →
      filter (λ r, SlackConfiguration.connectorId r = sibling)
        (slack_configurations db')
      = filter (λ r, SlackConfiguration.connectorId r = sibling)
          (slack_configurations db)
      ∧ filter (λ r, SlackMessages.connectorId r = sibling)
          (slack_messages db')
        = filter (λ r, SlackMessages.connectorId r = sibling)
            (slack_messages db).
Proof.
  intros db'. subst db'.
  destruct (cleanupSlackConnector_db w connectorId db)
    as [[_ ->] | (_ & _ & ->)]; [done|].
  simpl. do 2 (split; [done|]). intros sibling Hsibling.
  split; apply destroy_keeps_others; intros r; simpl; congruence.
Qed.

Lemma cleanupSlackConnector_frame_witness :
  filter (λ r, SlackConfiguration.connectorId r = 2)
    (slack_configurations
       (db_of (cleanupSlackConnector sample_world 1 sample_db)))
  = [SlackConfiguration.mk 2 "T9" 2 false]
  ∧ slack_channels (db_of (cleanupSlackConnector sample_world 1 sample_db))
    = slack_channels sample_db.
Proof.
  pose proof (cleanupSlackConnector_frame sample_world 1 sample_db)
    as (_ & Hchannels & Hsiblings).
  assert (2 ≠ 1) as Hother by lia.
  destruct (Hsiblings 2 Hother) as [Hconfigurations _].
  split; [|exact Hchannels]. rewrite Hconfigurations. reflexivity.
Defined.

(** X16. A clean-up that succeeded is not repeated.  After it the connector
    has no configuration, so a second clean-up returns an error without
    calling Slack or Nango again, and reading or toggling the bot flag and
    setting permissions return errors as well; none of these calls changes
    the store. *)
Theorem cleanupSlackConnector_then_gone (w : World) (connectorId : ModelId)
    (db : DB) (b : bool)
    (permissions : list (string * ConnectorPermission)) :
  result_of (cleanupSlackConnector w connectorId db) = Returned (Ok tt) →
  let db' := db_of (cleanupSlackConnector w connectorId db) in
  (∃ e, cleanupSlackConnector w connectorId db' = (Returned (Err e), db', []))
  ∧ (∃ e, getBotEnabled connectorId db' = (Returned (Err e), db', []))
  ∧ (∃ e, toggleSlackbot connectorId b db' = (Returned (Err e), db', []))
  ∧ (∃ e, setSlackConnectorPermissions w connectorId permissions db'
          = (Returned (Err e), db', [])).
Proof.
  intros Hok db'. subst db'.
  destruct (cleanupSlackConnector_db w connectorId db)
    as [[Hne _] | (_ & [c Hc] & ->)]; [done|].
  set (db' := mkDB _ _ _ _).
  assert (findOne (λ r, SlackConfiguration.connectorId r = connectorId)
            (slack_configurations db') = None) as Hnone.
  { apply findOne_None. intros r Hr. simpl in Hr.
    by apply destroy_removes in Hr. }
  simpl in Hnone. split; [|split; [|split]].
  - unfold cleanupSlackConnector. run. rewrite Hc. simpl.
    rewrite Hnone. simpl. eauto.
  - unfold getBotEnabled. run. rewrite Hnone. simpl. eauto.
  - unfold toggleSlackbot. run. rewrite Hnone. simpl. eauto.
  - apply setSlackConnectorPermissions_not_found. by right.
Qed.

Lemma cleanupSlackConnector_then_gone_witness :
  ∃ e, cleanupSlackConnector sample_world 1
         (db_of (cleanupSlackConnector sample_world 1 sample_db))
       = (Returned (Err e),
          db_of (cleanupSlackConnector sample_world 1 sample_db), []).
Proof.
  pose proof (cleanupSlackConnector_then_gone sample_world 1 sample_db true
                [] eq_refl) as (Hagain & _).
  exact Hagain.
Defined.

(** ** The bot flag and the other rows *)

(** X17. Toggling the bot of a connector changes its flag and nothing
    else.  The tables of connectors, channels and messages are as before,
    every configuration row keeps its place and all its columns but
    [botEnabled], and, the primary keys of the configurations being
    distinct, the bot flag read for any other connector is what it was. *)
Theorem toggleSlackbot_frame (db : DB) (connectorId other : ModelId)
    (b : bool) :
  NoDup (SlackConfiguration.id <$> slack_configurations db) →
  other ≠ connectorId →
  let db' := db_of (toggleSlackbot connectorId b db) in
  connectors db' = connectors db
  ∧ slack_channels db' = slack_channels db
  ∧ slack_messages db' = slack_messages db
  ∧ Forall2 (λ r r', r' = SlackConfiguration.set_botEnabled
                            (SlackConfiguration.botEnabled r') r)
      (slack_configurations db) (slack_configurations db')
  ∧ result_of (getBotEnabled other db') = result_of (getBotEnabled other db).
Proof.
  intros Hkeys Hother db'. subst db'. unfold toggleSlackbot. run.
  destruct (findOne _ (slack_configurations db)) as [cfg|] eqn:Hcfg; simpl.
  - do 3 (split; [done|]).
    apply findOne_Some in Hcfg as [Hin Hconnector]. split.
    + unfold update_where_pk.
      apply Forall2_fmap_r, Forall_Forall2_diag, Forall_forall.
      intros r _. simpl. case_bool_decide; by destruct r.
    + unfold getBotEnabled, update_where_pk. run.
      rewrite findOne_fmap by (intros r; by case_bool_decide).
      destruct (findOne (λ r, SlackConfiguration.connectorId r = other)
                  (slack_configurations db)) as [r|] eqn:Hr; [|done].
      simpl. apply findOne_Some in Hr as [Hin' Hconnector'].
      rewrite bool_decide_eq_false_2; [done|].
      intros Heq.
      pose proof (NoDup_fmap_unique SlackConfiguration.id _ _ _ Hkeys Hin'
                    Hin Heq) as ->.
      congruence.
  - do 3 (split; [done|]). split; [|done].
    apply Forall_Forall2_diag, Forall_forall. intros r _. by destruct r.
Qed.

Lemma toggleSlackbot_frame_witness :
  result_of (getBotEnabled 2 (db_of (toggleSlackbot 1 true sample_db)))
  = result_of (getBotEnabled 2 sample_db).
Proof.
  assert (NoDup (SlackConfiguration.id <$> slack_configurations sample_db))
    as Hkeys by (simpl; compute_done).
  assert (2 ≠ 1) as Hother by lia.
  pose proof (toggleSlackbot_frame sample_db 1 2 true Hkeys Hother)
    as (_ & _ & _ & _ & Hflag).
  exact Hflag.
Defined.

Lemma toggleSlackbot_db (db : DB) (connectorId : ModelId) (b : bool) :
  db_of (toggleSlackbot connectorId b db)
  = match findOne (λ r, SlackConfiguration.connectorId r = connectorId)
            (slack_configurations db) with
    | Some cfg =>
        with_slack_configurations
          (update_where_pk SlackConfiguration.id (SlackConfiguration.id cfg)
             (SlackConfiguration.set_botEnabled b)) db
    | None => db
    end.
Proof.
  unfold toggleSlackbot. run.
  by destruct (findOne _ (slack_configurations db)).
Qed.

(** X18. The last toggle wins: toggling the bot of a connector to [b1] and
    then to [b2] leaves the store exactly as toggling it to [b2] alone does.
    In particular toggling twice to the same value is the same as toggling
    once. *)
Theorem toggleSlackbot_overwrites (db : DB) (connectorId : ModelId)
    (b1 b2 : bool) :
  db_of (toggleSlackbot connectorId b2
           (db_of (toggleSlackbot connectorId b1 db)))
  = db_of (toggleSlackbot connectorId b2 db).
Proof.
  rewrite !toggleSlackbot_db.
  destruct (findOne _ (slack_configurations db)) as [cfg|] eqn:Hcfg.
  - simpl. rewrite (botEnabled_after_save _ _ b1 cfg Hcfg). simpl.
    unfold with_slack_configurations. simpl. f_equal.
    unfold update_where_pk. rewrite <- list_fmap_compose.
    apply list_fmap_ext. intros i r _. simpl.
    destruct (decide (SlackConfiguration.id r = SlackConfiguration.id cfg))
      as [Heq|Hne].
    + rewrite (bool_decide_eq_true_2 _ Heq). simpl.
      by rewrite (bool_decide_eq_true_2 _ Heq).
    + by rewrite !(bool_decide_eq_false_2 _ Hne).
  - by rewrite Hcfg.
Qed.
